(** * examples/plot_stc.ipynb: the "Brain Mesh" notebook

    The repository holds one Jupyter notebook.  This development embeds

    - the notebook document itself (cells, source lines, recorded outputs),
      as it stands in the [.ipynb] file;
    - the syntax of its code cells (a small Python statement language) and a
      check that this syntax accounts for every character of the source;
    - the execution of the code cells against the external libraries
      ([mne], [mne_g3d], [os.path], the builtins), which are a parameter:
      every call the notebook makes is delegated, may raise, and is logged.
*)

From Stdlib Require Import String Ascii List ZArith QArith Bool Lia.
Import ListNotations.

Open Scope string_scope.
Open Scope list_scope.

(* ================================================================= *)
(** ** The notebook document *)

Module Ipynb.

(** The double-quote character, for source lines that contain it. *)
Definition dq : string := String (ascii_of_nat 34) EmptyString.

(** A line written in pieces. *)
Definition text (pieces : list string) : string := String.concat "" pieces.

Inductive cell_type := markdown | code.

(** An entry of a cell's ["outputs"] array. *)
Inductive output :=
| stream (name : string) (text : list string)
| display_data (mimes : list string) (model_id : string).

(** A cell.  [source] holds the lines of the ["source"] array, each without
    its terminating newline. *)
Record cell := {
  cell_kind : cell_type;
  execution_count : option nat;
  outputs : list output;
  source : list string
}.

Definition cell_title : cell :=
  {| cell_kind := markdown; execution_count := None; outputs := [];
     source := ["# Brain Mesh"] |}.

Definition cell_import_heading : cell :=
  {| cell_kind := markdown; execution_count := None; outputs := [];
     source := ["## Import of  modules"] |}.

Definition cell_imports : cell :=
  {| cell_kind := code; execution_count := Some 1%nat; outputs := [];
     source :=
       [ "import os.path as path";
         "";
         "import mne";
         "from mne import read_source_estimate";
         "";
         "import numpy as np" ] |}.

Definition cell_import_g3d : cell :=
  {| cell_kind := code; execution_count := Some 2%nat; outputs := [];
     source := [ "import mne_g3d" ] |}.

Definition cell_reading_heading : cell :=
  {| cell_kind := markdown; execution_count := None; outputs := [];
     source := ["## Data reading"] |}.

(** The text of the stdout stream recorded under the third code cell. *)
Definition recorded_stdout : list string :=
  [ "[0.   0.01 0.02 0.03 0.04 0.05 0.06 0.07 0.08 0.09 0.1  0.11 0.12 0.13";
    " 0.14 0.15 0.16 0.17 0.18 0.19 0.2  0.21 0.22 0.23 0.24]";
    "Morphing data...";
    "    Left-hemisphere map read.";
    "    Right-hemisphere map read.";
    "    Left-hemisphere map read.";
    "    Right-hemisphere map read.";
    "    10 smooth iterations done.";
    "    10 smooth iterations done.";
    "[done]" ].

Definition cell_plot : cell :=
  {| cell_kind := code; execution_count := Some 3%nat;
     outputs :=
       [ stream "stdout" recorded_stdout;
         display_data
           [ "application/vnd.jupyter.widget-view+json"; "text/plain" ]
           "7fe0019a0c6949a4b3b61c97d38b4a0b" ];
     source :=
       [ "data_path = mne.datasets.sample.data_path()";
         "";
         "subject = 'sample'";
         "subjects_dir = path.join(data_path, 'subjects')";
         "act_data = path.join(data_path, 'MEG/sample/sample_audvis-meg-eeg')";
         "";
         "stc = read_source_estimate(act_data)";
         "print(stc.times)";
         text [ "#"; dq; "lat"; dq; ", "; dq; "med"; dq; ", "; dq; "fos"; dq;
                ", "; dq; "cau"; dq; ", "; dq; "dor"; dq; "," ];
         text [ "#        "; dq; "ven"; dq; ", "; dq; "fro"; dq; ", "; dq;
                "par"; dq; "]." ];
         "";
         "fig = mne_g3d.viz.plot_source_estimates(stc, subject=subject, surface='inflated', hemi='both',";
         "                          colormap='hot', smoothing_steps=10, ";
         "                          transparent=False, alpha=1.0, subjects_dir=subjects_dir,";
         "                          clim='auto', figure=None, size=800,";
         text [ "                          background="; dq; "black"; dq;
                ", initial_time=0.23)" ] ] |}.

Definition cell_empty : cell :=
  {| cell_kind := code; execution_count := None; outputs := []; source := [] |}.

(** The ["cells"] array of the notebook, in document order. *)
Definition cells : list cell :=
  [ cell_title; cell_import_heading; cell_imports; cell_import_g3d;
    cell_reading_heading; cell_plot; cell_empty ].

Definition is_code (c : cell) : bool :=
  match cell_kind c with code => true | markdown => false end.

Definition code_cells : list cell := filter is_code cells.

(** All source lines of the code cells, outputs left out. *)
Definition code_lines : list string := flat_map source code_cells.

(** All source lines of all cells, markdown included. *)
Definition all_lines : list string := flat_map source cells.

End Ipynb.

(* ================================================================= *)
(** ** Syntax of the code cells *)

#[local] Set Warnings "-register-all".

Module Py.

(** Literal constants.  A float literal is kept as the decimal it is written
    as: [CFloat m d] is the literal whose digits are [m] with [d] of them
    after the point ([0.23] is [CFloat 23 2], [1.0] is [CFloat 10 1]). *)
Inductive constant :=
| CNone
| CBool (b : bool)
| CInt (z : Z)
| CFloat (m : Z) (d : nat)
| CStr (s : string).

Inductive expr :=
| Const (c : constant)
| Name (id : string)
| Attribute (value : expr) (attr : string)
| Call (func : expr) (args : list expr) (keywords : list (string * expr)).

(** The statements of a straight-line cell: [import m as x], [from m import
    x], [x = e] and an expression statement. *)
Inductive stmt :=
| Import (module : list string) (asname : option string)
| ImportFrom (module : list string) (name : string)
| Assign (target : string) (value : expr)
| Expr (value : expr).

(** *** Induction on expressions *)

Section ExprInd.

Variable P : expr -> Prop.
Hypothesis HConst : forall c, P (Const c).
Hypothesis HName : forall x, P (Name x).
Hypothesis HAttr : forall e a, P e -> P (Attribute e a).
Hypothesis HCall :
  forall f args kws,
    P f -> Forall P args -> Forall (fun kw => P (snd kw)) kws ->
    P (Call f args kws).

(** Induction on expressions that reaches the arguments of a call. *)
Fixpoint expr_rect_args (e : expr) : P e :=
  match e with
  | Const c => HConst c
  | Name x => HName x
  | Attribute e' a => HAttr e' a (expr_rect_args e')
  | Call f args kws =>
      HCall f args kws (expr_rect_args f)
        ((fix go (es : list expr) : Forall P es :=
            match es with
            | [] => Forall_nil P
            | e' :: es' => Forall_cons e' (expr_rect_args e') (go es')
            end) args)
        ((fix go (ks : list (string * expr))
            : Forall (fun kw => P (snd kw)) ks :=
            match ks with
            | [] => Forall_nil _
            | kw :: ks' =>
                Forall_cons kw (expr_rect_args (snd kw)) (go ks')
            end) kws)
  end.

End ExprInd.

(** *** Lexer *)

Inductive token :=
| TName (s : string)
| TInt (z : Z)
| TFloat (m : Z) (d : nat)
| TStr (s : string)
| TSym (c : ascii)
| TNewline.

Definition code_in (lo hi : nat) (c : ascii) : bool :=
  let n := nat_of_ascii c in (lo <=? n)%nat && (n <=? hi)%nat.

Definition is_digit (c : ascii) : bool := code_in 48 57 c.
Definition is_ident_start (c : ascii) : bool :=
  code_in 65 90 c || code_in 97 122 c || Ascii.eqb c "_".
Definition is_ident (c : ascii) : bool := is_ident_start c || is_digit c.
Definition is_newline (c : ascii) : bool := Nat.eqb (nat_of_ascii c) 10.
Definition is_blank (c : ascii) : bool :=
  Ascii.eqb c " " || Nat.eqb (nat_of_ascii c) 9.
Definition is_quote (c : ascii) : bool :=
  Ascii.eqb c "'" || Nat.eqb (nat_of_ascii c) 34.
Definition is_backslash (c : ascii) : bool := Nat.eqb (nat_of_ascii c) 92.

Fixpoint span (p : ascii -> bool) (cs : list ascii) : list ascii * list ascii :=
  match cs with
  | c :: cs' =>
      if p c then let (a, b) := span p cs' in (c :: a, b) else ([], cs)
  | [] => ([], [])
  end.

Definition digits_value (ds : list ascii) : Z :=
  fold_left (fun acc c => 10 * acc + (Z.of_nat (nat_of_ascii c) - 48))%Z ds 0%Z.

Definition starts_blank (cs : list ascii) : bool :=
  match cs with c :: _ => is_blank c | [] => false end.

(** [lex fuel depth cs]: the tokens of [cs], [depth] counting the open
    parentheses.  A newline inside parentheses is skipped, a comment runs to
    the end of its line, and a statement that starts indented is refused
    (it would belong to a block). *)
Fixpoint lex (fuel depth : nat) (cs : list ascii) : option (list token) :=
  match fuel with
  | O => None
  | S fuel =>
    match cs with
    | [] => Some []
    | c :: rest =>
      if is_newline c then
        match depth with
        | O => if starts_blank rest then None
               else option_map (cons TNewline) (lex fuel depth rest)
        | S _ => lex fuel depth rest
        end
      else if is_blank c then lex fuel depth rest
      else if Ascii.eqb c "#" then
        lex fuel depth (snd (span (fun x => negb (is_newline x)) rest))
      else if Ascii.eqb c "(" then
        option_map (cons (TSym c)) (lex fuel (S depth) rest)
      else if Ascii.eqb c ")" then
        option_map (cons (TSym c)) (lex fuel (pred depth) rest)
      else if Ascii.eqb c "," || Ascii.eqb c "=" || Ascii.eqb c "." then
        option_map (cons (TSym c)) (lex fuel depth rest)
      else if is_quote c then
        let (body, rest') := span (fun x => negb (Ascii.eqb x c)) rest in
        match rest' with
        | _ :: rest'' =>
            if existsb is_backslash body || existsb is_newline body then None
            else option_map (cons (TStr (string_of_list_ascii body)))
                            (lex fuel depth rest'')
        | [] => None
        end
      else if is_digit c then
        let (ip, r1) := span is_digit cs in
        match r1 with
        | dot :: r2 =>
            if Ascii.eqb dot "." then
              let (fp, r3) := span is_digit r2 in
              option_map (cons (TFloat (digits_value (ip ++ fp)) (length fp)))
                         (lex fuel depth r3)
            else option_map (cons (TInt (digits_value ip))) (lex fuel depth r1)
        | [] => Some [TInt (digits_value ip)]
        end
      else if is_ident_start c then
        let (w, r) := span is_ident cs in
        option_map (cons (TName (string_of_list_ascii w))) (lex fuel depth r)
      else None
    end
  end.

(** The text of a cell: its lines joined by newlines. *)
Definition cell_text (lines : list string) : list ascii :=
  list_ascii_of_string
    (String.concat (String (ascii_of_nat 10) EmptyString) lines).

Definition tokens (lines : list string) : option (list token) :=
  let cs := cell_text lines in lex (S (length cs)) 0 cs.

(** *** Parser *)

Definition keywords : list string :=
  [ "False"; "None"; "True"; "and"; "as"; "assert"; "async"; "await";
    "break"; "class"; "continue"; "def"; "del"; "elif"; "else"; "except";
    "finally"; "for"; "from"; "global"; "if"; "import"; "in"; "is";
    "lambda"; "nonlocal"; "not"; "or"; "pass"; "raise"; "return"; "try";
    "while"; "with"; "yield" ].

Definition is_keyword (s : string) : bool := existsb (String.eqb s) keywords.

Definition parse_atom (ts : list token) : option (expr * list token) :=
  match ts with
  | TName s :: r =>
      if String.eqb s "None" then Some (Const CNone, r)
      else if String.eqb s "True" then Some (Const (CBool true), r)
      else if String.eqb s "False" then Some (Const (CBool false), r)
      else if is_keyword s then None
      else Some (Name s, r)
  | TInt z :: r => Some (Const (CInt z), r)
  | TFloat m d :: r => Some (Const (CFloat m d), r)
  | TStr s :: r => Some (Const (CStr s), r)
  | _ => None
  end.

Definition is_sym (c : ascii) (t : token) : bool :=
  match t with TSym c' => Ascii.eqb c c' | _ => false end.

(** Expressions: an atom followed by [.name] and [(arguments)] trailers.
    In an argument list the positional arguments come first; [pos] and
    [kws] accumulate them in reverse. *)
Fixpoint parse_expr (fuel : nat) (ts : list token) {struct fuel}
  : option (expr * list token) :=
  match fuel with
  | O => None
  | S fuel =>
      match parse_atom ts with
      | Some (e, r) => parse_trailers fuel e r
      | None => None
      end
  end
with parse_trailers (fuel : nat) (e : expr) (ts : list token) {struct fuel}
  : option (expr * list token) :=
  match fuel with
  | O => None
  | S fuel =>
      match ts with
      | TSym c :: TName a :: r =>
          if Ascii.eqb c "." then
            if is_keyword a then None
            else parse_trailers fuel (Attribute e a) r
          else if Ascii.eqb c "(" then
            match parse_args fuel (TName a :: r) [] [] with
            | Some (pos, kws, r') => parse_trailers fuel (Call e pos kws) r'
            | None => None
            end
          else Some (e, ts)
      | TSym c :: r =>
          if Ascii.eqb c "(" then
            match parse_args fuel r [] [] with
            | Some (pos, kws, r') => parse_trailers fuel (Call e pos kws) r'
            | None => None
            end
          else Some (e, ts)
      | _ => Some (e, ts)
      end
  end
with parse_args (fuel : nat) (ts : list token)
       (pos : list expr) (kws : list (string * expr)) {struct fuel}
  : option (list expr * list (string * expr) * list token) :=
  match fuel with
  | O => None
  | S fuel =>
      let finish (r : list token) (pos : list expr) (kws : list (string * expr)) :=
        match r with
        | TSym c :: r' =>
            if Ascii.eqb c ")" then Some (rev pos, rev kws, r')
            else if Ascii.eqb c "," then parse_args fuel r' pos kws
            else None
        | _ => None
        end in
      match ts with
      | TSym c :: r =>
          if Ascii.eqb c ")" then Some (rev pos, rev kws, r) else None
      | TName k :: TSym c :: r =>
          if Ascii.eqb c "=" then
            if is_keyword k then None
            else match parse_expr fuel r with
                 | Some (v, r') => finish r' pos ((k, v) :: kws)
                 | None => None
                 end
          else match kws, parse_expr fuel ts with
               | [], Some (v, r') => finish r' (v :: pos) kws
               | _, _ => None
               end
      | _ =>
          match kws, parse_expr fuel ts with
          | [], Some (v, r') => finish r' (v :: pos) kws
          | _, _ => None
          end
      end
  end.

(** A dotted module name [a.b.c]. *)
Fixpoint parse_dotted (ts : list token) : option (list string * list token) :=
  match ts with
  | TName a :: TSym c :: r =>
      if is_keyword a then None
      else if Ascii.eqb c "." then
        match parse_dotted r with
        | Some (q, r') => Some (a :: q, r')
        | None => None
        end
      else Some ([a], TSym c :: r)
  | TName a :: r => if is_keyword a then None else Some ([a], r)
  | _ => None
  end.

(** One logical line. *)
Definition parse_stmt (ts : list token) : option stmt :=
  match ts with
  | TName kw :: r =>
      if String.eqb kw "import" then
        match parse_dotted r with
        | Some (m, []) => Some (Import m None)
        | Some (m, [TName a; TName x]) =>
            if String.eqb a "as" && negb (is_keyword x)
            then Some (Import m (Some x)) else None
        | _ => None
        end
      else if String.eqb kw "from" then
        match parse_dotted r with
        | Some (m, [TName i; TName x]) =>
            if String.eqb i "import" && negb (is_keyword x)
            then Some (ImportFrom m x) else None
        | _ => None
        end
      else
        match r with
        | TSym c :: r' =>
            if Ascii.eqb c "=" then
              if is_keyword kw then None
              else match parse_expr (S (length ts)) r' with
                   | Some (e, []) => Some (Assign kw e)
                   | _ => None
                   end
            else match parse_expr (S (length ts)) ts with
                 | Some (e, []) => Some (Expr e)
                 | _ => None
                 end
        | _ => match parse_expr (S (length ts)) ts with
               | Some (e, []) => Some (Expr e)
               | _ => None
               end
        end
  | _ => match parse_expr (S (length ts)) ts with
         | Some (e, []) => Some (Expr e)
         | _ => None
         end
  end.

(** Tokens split into logical lines; blank lines dropped. *)
Fixpoint logical_lines (ts : list token) (cur : list token) : list (list token) :=
  match ts with
  | [] => match cur with [] => [] | _ => [rev cur] end
  | TNewline :: r =>
      match cur with
      | [] => logical_lines r []
      | _ => rev cur :: logical_lines r []
      end
  | t :: r => logical_lines r (t :: cur)
  end.

Fixpoint parse_lines (ls : list (list token)) : option (list stmt) :=
  match ls with
  | [] => Some []
  | l :: ls' =>
      match parse_stmt l, parse_lines ls' with
      | Some s, Some ss => Some (s :: ss)
      | _, _ => None
      end
  end.

(** The statements of a cell, from its source lines. *)
Definition parse (lines : list string) : option (list stmt) :=
  match tokens lines with
  | Some ts => parse_lines (logical_lines ts [])
  | None => None
  end.

End Py.


(* ================================================================= *)
(** ** Execution against the external libraries *)

Module Sem.
Import Py.

(** A dotted name in the libraries' name space, [mne.datasets.sample]. *)
Definition qualname := list string.

Fixpoint qualname_eqb (p q : qualname) : bool :=
  match p, q with
  | [], [] => true
  | a :: p', b :: q' => String.eqb a b && qualname_eqb p' q'
  | _, _ => false
  end.

(** An exception, by class and message. *)
Inductive exn := Exception (class message : string).

Inductive outcome (A : Type) :=
| Returned (a : A)
| Raised (e : exn).
Arguments Returned {A} a.
Arguments Raised {A} e.

Section Values.

(** [obj] is the type of the objects the libraries create (a source
    estimate, an array, a figure); the notebook never looks inside one. *)
Variable obj : Type.

(** What a library call or an attribute read gives back. *)
Inductive data :=
| DConst (c : constant)
| DObj (o : obj).

(** What a notebook variable can hold: data, or a reference to a module or
    to a named member of a module, as [import] binds them. *)
Inductive value :=
| VData (d : data)
| VRef (q : qualname).

(** One operation delegated to the libraries, with its outcome. *)
Inductive event :=
| EvImport (m : qualname) (r : outcome unit)
| EvGetattr (d : data) (attr : string) (r : outcome data)
| EvCall (f : value) (args : list value) (kwargs : list (string * value))
         (r : outcome data).

(** [W] is the state of everything outside the notebook: the file system,
    the downloaded datasets, the loaded modules, the display. *)
Variable W : Type.

(** The external libraries.  Importing and calling act on the outside and
    may raise.  Reading an attribute of an object and [os.path.join] are
    functions of their arguments alone (they may still raise). *)
Record library := {
  lib_import : qualname -> W -> outcome unit * W;
  lib_call : value -> list value -> list (string * value) -> W
             -> outcome data * W;
  lib_getattr : data -> string -> outcome data;
  os_path_join : list value -> list (string * value) -> outcome data
}.

Variable L : library.

(** *** The execution monad: outside state, exceptions, log of events *)

Definition M (A : Type) : Type := W -> outcome A * W * list event.

Definition ret {A : Type} (a : A) : M A := fun w => (Returned a, w, []).

Definition raise {A : Type} (e : exn) : M A := fun w => (Raised e, w, []).

Definition bind {A B : Type} (m : M A) (k : A -> M B) : M B :=
  fun w =>
    match m w with
    | (Returned a, w1, t1) =>
        match k a w1 with
        | (r, w2, t2) => (r, w2, t1 ++ t2)
        end
    | (Raised e, w1, t1) => (Raised e, w1, t1)
    end.

Definition import_ (m : qualname) : M unit :=
  fun w =>
    match lib_import L m w with
    | (r, w1) => (r, w1, [EvImport m r])
    end.

Definition os_path_join_name : qualname := ["os"; "path"; "join"].

Definition is_os_path_join (f : value) : bool :=
  match f with
  | VRef q => qualname_eqb q os_path_join_name
  | VData _ => false
  end.

Definition call (f : value) (args : list value)
           (kwargs : list (string * value)) : M data :=
  fun w =>
    if is_os_path_join f then
      let r := os_path_join L args kwargs in (r, w, [EvCall f args kwargs r])
    else
      match lib_call L f args kwargs w with
      | (r, w1) => (r, w1, [EvCall f args kwargs r])
      end.

(** [v.attr]: a member of a module is named (whether it exists shows when
    the library is asked to call it), an attribute of an object is read from
    the library. *)
Definition getattr (v : value) (attr : string) : M value :=
  match v with
  | VRef q => ret (VRef (q ++ [attr]))
  | VData d =>
      fun w =>
        match lib_getattr L d attr with
        | Returned x => (Returned (VData x), w, [EvGetattr d attr (Returned x)])
        | Raised e => (Raised e, w, [EvGetattr d attr (Raised e)])
        end
  end.

End Values.

Arguments DConst {obj} c.
Arguments DObj {obj} o.
Arguments VData {obj} d.
Arguments VRef {obj} q.
Arguments EvImport {obj} m r.
Arguments EvGetattr {obj} d attr r.
Arguments EvCall {obj} f args kwargs r.
Arguments ret {obj W A} a.
Arguments raise {obj W A} e.
Arguments bind {obj W A B} m k.
Arguments import_ {obj W} L m.
Arguments call {obj W} L f args kwargs.
Arguments getattr {obj W} L v attr.
Arguments is_os_path_join {obj} f.
Arguments lib_import {obj W} l.
Arguments lib_call {obj W} l.
Arguments lib_getattr {obj W} l.
Arguments os_path_join {obj W} l.

Declare Scope py_scope.
Delimit Scope py_scope with py.
Notation "x <- m ;; k" := (bind m (fun x => k))
  (at level 61, m at next level, right associativity) : py_scope.
Notation "m ;; k" := (bind m (fun _ => k))
  (at level 61, right associativity) : py_scope.
Open Scope py_scope.

(** *** Evaluation of the syntax *)

Section Interp.

Context {obj W : Type} (L : library obj W).

(** The variables of the kernel session, latest binding first. *)
Definition env : Type := list (string * value obj).

Fixpoint lookup (rho : env) (x : string) : option (value obj) :=
  match rho with
  | [] => None
  | (y, v) :: rho' => if String.eqb x y then Some v else lookup rho' x
  end.

(** Names the [builtins] module supplies when no variable has them. *)
Definition builtin_names : list string :=
  [ "print"; "len"; "range"; "str"; "int"; "float"; "list"; "dict";
    "tuple"; "set"; "open"; "type"; "isinstance"; "repr" ].

Definition load_name (rho : env) (x : string) : M obj W (value obj) :=
  match lookup rho x with
  | Some v => ret v
  | None =>
      if existsb (String.eqb x) builtin_names
      then ret (VRef ["builtins"; x])
      else raise (Exception "NameError" x)
  end.

(** Python evaluates the called expression, then the positional arguments
    from left to right, then the keyword arguments in the order written. *)
Fixpoint eval (rho : env) (e : expr) {struct e} : M obj W (value obj) :=
  match e with
  | Const c => ret (VData (DConst c))
  | Name x => load_name rho x
  | Attribute e' a => v <- eval rho e' ;; getattr L v a
  | Call f args kws =>
      fv <- eval rho f ;;
      avs <- (fix eval_args (es : list expr) : M obj W (list (value obj)) :=
                match es with
                | [] => ret []
                | e' :: es' =>
                    v <- eval rho e' ;; vs <- eval_args es' ;; ret (v :: vs)
                end) args ;;
      kvs <- (fix eval_kws (ks : list (string * expr))
                : M obj W (list (string * value obj)) :=
                match ks with
                | [] => ret []
                | (k, e') :: ks' =>
                    v <- eval rho e' ;; vs <- eval_kws ks' ;;
                    ret ((k, v) :: vs)
                end) kws ;;
      d <- call L fv avs kvs ;;
      ret (VData d)
  end.

Definition exec (rho : env) (s : stmt) : M obj W env :=
  match s with
  | Import m None =>
      import_ L m ;;
      ret (match m with
           | top :: _ => (top, VRef [top]) :: rho
           | [] => rho
           end)
  | Import m (Some x) => import_ L m ;; ret ((x, VRef m) :: rho)
  | ImportFrom m x => import_ L m ;; ret ((x, VRef (m ++ [x])) :: rho)
  | Assign x e => v <- eval rho e ;; ret ((x, v) :: rho)
  | Expr e => eval rho e ;; ret rho
  end.

(** A cell runs its statements in order; the session runs the cells in
    order and keeps the variables from one cell to the next.  An exception
    ends the run. *)
Fixpoint exec_cell (rho : env) (ss : list stmt) : M obj W env :=
  match ss with
  | [] => ret rho
  | s :: ss' => rho' <- exec rho s ;; exec_cell rho' ss'
  end.

Fixpoint exec_cells (rho : env) (cs : list (list stmt)) : M obj W env :=
  match cs with
  | [] => ret rho
  | c :: cs' => rho' <- exec_cell rho c ;; exec_cells rho' cs'
  end.

End Interp.

End Sem.

(* ================================================================= *)
(** ** The notebook's code *)

Module Notebook.
Import Py Sem.

(** *** The parsed cells *)

Definition imports_ast : list stmt :=
  [ Import ["os"; "path"] (Some "path");
    Import ["mne"] None;
    ImportFrom ["mne"] "read_source_estimate";
    Import ["numpy"] (Some "np") ].

Definition import_g3d_ast : list stmt :=
  [ Import ["mne_g3d"] None ].

Definition plot_ast : list stmt :=
  [ Assign "data_path"
      (Call (Attribute (Attribute (Attribute (Name "mne") "datasets")
                                  "sample") "data_path") [] []);
    Assign "subject" (Const (CStr "sample"));
    Assign "subjects_dir"
      (Call (Attribute (Name "path") "join")
            [Name "data_path"; Const (CStr "subjects")] []);
    Assign "act_data"
      (Call (Attribute (Name "path") "join")
            [Name "data_path";
             Const (CStr "MEG/sample/sample_audvis-meg-eeg")] []);
    Assign "stc" (Call (Name "read_source_estimate") [Name "act_data"] []);
    Expr (Call (Name "print") [Attribute (Name "stc") "times"] []);
    Assign "fig"
      (Call (Attribute (Attribute (Name "mne_g3d") "viz")
                       "plot_source_estimates")
            [Name "stc"]
            [ ("subject", Name "subject");
              ("surface", Const (CStr "inflated"));
              ("hemi", Const (CStr "both"));
              ("colormap", Const (CStr "hot"));
              ("smoothing_steps", Const (CInt 10));
              ("transparent", Const (CBool false));
              ("alpha", Const (CFloat 10 1));
              ("subjects_dir", Name "subjects_dir");
              ("clim", Const (CStr "auto"));
              ("figure", Const CNone);
              ("size", Const (CInt 800));
              ("background", Const (CStr "black"));
              ("initial_time", Const (CFloat 23 2)) ]) ].

(** The code cells in document order; the last one is empty. *)
Definition program : list (list stmt) :=
  [ imports_ast; import_g3d_ast; plot_ast; [] ].

Definition statements : list stmt := concat program.

(** *** The names the notebook calls *)

Definition data_path_name : qualname := ["mne"; "datasets"; "sample"; "data_path"].
Definition read_source_estimate_name : qualname := ["mne"; "read_source_estimate"].
Definition print_name : qualname := ["builtins"; "print"].
Definition plot_source_estimates_name : qualname :=
  ["mne_g3d"; "viz"; "plot_source_estimates"].

Section Shallow.

Context {obj W : Type} (L : library obj W).

Definition str (s : string) : value obj := VData (DConst (CStr s)).
Definition int (z : Z) : value obj := VData (DConst (CInt z)).
Definition float (m : Z) (d : nat) : value obj := VData (DConst (CFloat m d)).
Definition boolean (b : bool) : value obj := VData (DConst (CBool b)).
Definition none : value obj := VData (DConst CNone).

(** The keyword arguments of the plotting call, as written. *)
Definition plot_keywords (subject subjects_dir : value obj)
  : list (string * value obj) :=
  [ ("subject", subject);
    ("surface", str "inflated");
    ("hemi", str "both");
    ("colormap", str "hot");
    ("smoothing_steps", int 10);
    ("transparent", boolean false);
    ("alpha", float 10 1);
    ("subjects_dir", subjects_dir);
    ("clim", str "auto");
    ("figure", none);
    ("size", int 800);
    ("background", str "black");
    ("initial_time", float 23 2) ].

(** First code cell. *)
Definition cell_imports : M obj W unit :=
  import_ L ["os"; "path"] ;;
  import_ L ["mne"] ;;
  import_ L ["mne"] ;;
  import_ L ["numpy"].

(** Second code cell. *)
Definition cell_import_g3d : M obj W unit :=
  import_ L ["mne_g3d"].

(** Third code cell; it leaves the figure in [fig]. *)
Definition cell_plot : M obj W (data obj) :=
  data_path <- call L (VRef data_path_name) [] [] ;;
  let subject := str "sample" in
  subjects_dir <- call L (VRef os_path_join_name)
                       [VData data_path; str "subjects"] [] ;;
  act_data <- call L (VRef os_path_join_name)
                   [VData data_path;
                    str "MEG/sample/sample_audvis-meg-eeg"] [] ;;
  stc <- call L (VRef read_source_estimate_name) [VData act_data] [] ;;
  times <- getattr L (VData stc) "times" ;;
  call L (VRef print_name) [times] [] ;;
  fig <- call L (VRef plot_source_estimates_name) [VData stc]
              (plot_keywords subject (VData subjects_dir)) ;;
  ret fig.

(** The whole session: the cells in order. *)
Definition notebook : M obj W (data obj) :=
  cell_imports ;; cell_import_g3d ;; cell_plot.

(** The same session, by evaluating the parsed cells. *)
Definition session : M obj W (env (obj := obj)) :=
  exec_cells L [] program.

End Shallow.

(** What a run leaves behind. *)
Definition result {obj W A : Type} (x : outcome A * W * list (event obj))
  : outcome A := fst (fst x).
Definition world {obj W A : Type} (x : outcome A * W * list (event obj))
  : W := snd (fst x).
Definition trace {obj W A : Type} (x : outcome A * W * list (event obj))
  : list (event obj) := snd x.

Definition raised {A : Type} (r : outcome A) : option exn :=
  match r with Raised e => Some e | Returned _ => None end.

(** *** Reading a log of events *)

(** The exception an operation ended with, if it did. *)
Definition event_raised {obj : Type} (ev : event obj) : option exn :=
  match ev with
  | EvImport _ r => raised r
  | EvGetattr _ _ r => raised r
  | EvCall _ _ _ r => raised r
  end.

Definition is_call_to {obj : Type} (q : qualname) (ev : event obj) : bool :=
  match ev with
  | EvCall (VRef q') _ _ _ => qualname_eqb q q'
  | _ => false
  end.

(** The calls a log makes to the library function [q]. *)
Definition calls_to {obj : Type} (q : qualname) (tr : list (event obj))
  : list (event obj) := filter (is_call_to q) tr.

(** The value a call passes for keyword [k]. *)
Fixpoint keyword {V : Type} (k : string) (kwargs : list (string * V))
  : option V :=
  match kwargs with
  | [] => None
  | (k', v) :: rest => if String.eqb k k' then Some v else keyword k rest
  end.

(** The positional and keyword arguments of a call. *)
Definition call_arguments {obj : Type} (ev : event obj)
  : list (value obj) * list (string * value obj) :=
  match ev with
  | EvCall _ args kwargs _ => (args, kwargs)
  | _ => ([], [])
  end.

(** What the calls to [q] that returned gave back, in order. *)
Fixpoint returned_by {obj : Type} (q : qualname) (tr : list (event obj))
  : list (data obj) :=
  match tr with
  | [] => []
  | EvCall (VRef q') _ _ (Returned d) :: rest =>
      if qualname_eqb q q' then d :: returned_by q rest
      else returned_by q rest
  | _ :: rest => returned_by q rest
  end.

Definition event_raises {obj : Type} (ev : event obj) : bool :=
  match event_raised ev with Some _ => true | None => false end.

(** The exception the last operation of a log ended with, if it did. *)
Definition last_raised {obj : Type} (tr : list (event obj)) : option exn :=
  match rev tr with
  | ev :: _ => event_raised ev
  | [] => None
  end.

(** A log in which every operation returned. *)
Definition all_returned {obj : Type} (t : list (event obj)) : Prop :=
  forallb (fun ev => negb (event_raises ev)) t = true.

(** A computation that catches nothing: when it returns, every operation of
    its log returned; when it raises, every operation but the last returned,
    and the exception is the one the last operation raised or, with nothing
    raised by an operation, a [NameError] of the evaluation itself. *)
Definition uncaught {obj W A : Type} (m : M obj W A) : Prop :=
  forall w,
    match m w with
    | (Returned _, _, t) => all_returned t
    | (Raised e, _, t) =>
        all_returned (removelast t)
        /\ (last_raised t = Some e
            \/ (all_returned t /\ exists x, e = Exception "NameError" x))
    end.

(** What the print calls of a log were given. *)
Fixpoint printed {obj : Type} (tr : list (event obj)) : list (list (value obj)) :=
  match tr with
  | [] => []
  | EvCall (VRef q) args _ _ :: rest =>
      if qualname_eqb q print_name then args :: printed rest else printed rest
  | _ :: rest => printed rest
  end.

(** An operation without the values it ran on. *)
Inductive operation :=
| OpImport (m : qualname)
| OpCall (q : qualname)
| OpCallValue
| OpGetattr (attr : string).

Definition operation_of {obj : Type} (ev : event obj) : operation :=
  match ev with
  | EvImport m _ => OpImport m
  | EvCall (VRef q) _ _ _ => OpCall q
  | EvCall (VData _) _ _ _ => OpCallValue
  | EvGetattr _ a _ => OpGetattr a
  end.

(** The operations of the three cells, in the order the source writes
    them. *)
Definition schedule : list operation :=
  [ OpImport ["os"; "path"];
    OpImport ["mne"];
    OpImport ["mne"];
    OpImport ["numpy"];
    OpImport ["mne_g3d"];
    OpCall data_path_name;
    OpCall os_path_join_name;
    OpCall os_path_join_name;
    OpCall read_source_estimate_name;
    OpGetattr "times";
    OpCall print_name;
    OpCall plot_source_estimates_name ].

(** The log of a run that reaches the load call: five imports, the dataset
    root, the two joins, and the load with its outcome [r]. *)
Definition load_events {obj : Type} (root subjects_dir act_data : data obj)
           (r : outcome (data obj)) : list (event obj) :=
  [ EvImport ["os"; "path"] (Returned tt);
    EvImport ["mne"] (Returned tt);
    EvImport ["mne"] (Returned tt);
    EvImport ["numpy"] (Returned tt);
    EvImport ["mne_g3d"] (Returned tt);
    EvCall (VRef data_path_name) [] [] (Returned root);
    EvCall (VRef os_path_join_name) [VData root; str "subjects"] []
           (Returned subjects_dir);
    EvCall (VRef os_path_join_name)
           [VData root; str "MEG/sample/sample_audvis-meg-eeg"] []
           (Returned act_data);
    EvCall (VRef read_source_estimate_name) [VData act_data] [] r ].

(** What follows the load in a run that reaches the plotting call: the read
    of [stc.times], the print, and the plotting call with its outcome [r]. *)
Definition render_events {obj : Type} (subjects_dir stc times shown : data obj)
           (r : outcome (data obj)) : list (event obj) :=
  [ EvGetattr stc "times" (Returned times);
    EvCall (VRef print_name) [VData times] [] (Returned shown);
    EvCall (VRef plot_source_estimates_name) [VData stc]
           (plot_keywords (str "sample") (VData subjects_dir)) r ].

(** *** What the calls must be given *)

Section Expected.

Context {obj W : Type} (L : library obj W).

(** The arguments the glue gives its calls, from what [data_path()] and
    [read_source_estimate] returned. *)
Definition expected_read_arguments (roots : list (data obj))
  : list (list (value obj) * list (string * value obj)) :=
  match roots with
  | [root] =>
      match os_path_join L [VData root; str "subjects"] [],
            os_path_join L [VData root;
                            str "MEG/sample/sample_audvis-meg-eeg"] [] with
      | Returned _, Returned act_data => [([VData act_data], [])]
      | _, _ => []
      end
  | _ => []
  end.

Definition expected_printed (stcs : list (data obj))
  : list (list (value obj)) :=
  match stcs with
  | [stc] =>
      match lib_getattr L stc "times" with
      | Returned times => [[VData times]]
      | Raised _ => []
      end
  | _ => []
  end.

Definition expected_plot_arguments (roots stcs : list (data obj))
  : option (list (value obj) * list (string * value obj)) :=
  match roots, stcs with
  | [root], [stc] =>
      match os_path_join L [VData root; str "subjects"] [] with
      | Returned subjects_dir =>
          Some ([VData stc], plot_keywords (str "sample") (VData subjects_dir))
      | Raised _ => None
      end
  | _, _ => None
  end.

End Expected.


(** *** Reading the syntax *)

(** The keyword arguments of the call a statement makes. *)
Definition call_keywords (s : stmt) : list (string * expr) :=
  match s with
  | Assign _ (Call _ _ kws) => kws
  | Expr (Call _ _ kws) => kws
  | _ => []
  end.

(** The dotted name a called expression is written as. *)
Fixpoint written_name (e : expr) : option (list string) :=
  match e with
  | Name x => Some [x]
  | Attribute e' a =>
      match written_name e' with
      | Some q => Some (q ++ [a])
      | None => None
      end
  | _ => None
  end.

Definition callee (e : expr) : option (list string) :=
  match e with
  | Call f _ _ => written_name f
  | _ => None
  end.

(** The statement that makes the plotting call. *)
Definition plot_stmt : stmt := last plot_ast (Expr (Const CNone)).

(** The ten configuration options the specification names, each with the
    value it is said to have. *)
Definition configuration : list (string * constant) :=
  [ ("surface", CStr "inflated");
    ("hemi", CStr "both");
    ("colormap", CStr "hot");
    ("smoothing_steps", CInt 10);
    ("transparent", CBool false);
    ("alpha", CFloat 10 1);
    ("clim", CStr "auto");
    ("size", CInt 800);
    ("background", CStr "black");
    ("initial_time", CFloat 23 2) ].

(** What a statement does. *)
Inductive kind :=
| KImportStdlib
| KImportThirdParty
| KDatasetCall
| KPlotCall
| KPathJoin
| KConstant
| KPrint
| KOther.

(** Top-level packages of Python's standard library that matter here. *)
Definition stdlib_packages : list string :=
  [ "os"; "sys"; "math"; "json"; "re"; "time"; "pathlib"; "itertools";
    "functools"; "collections"; "threading"; "multiprocessing"; "asyncio";
    "subprocess" ].

Definition import_kind (m : list string) : kind :=
  match m with
  | top :: _ =>
      if existsb (String.eqb top) stdlib_packages
      then KImportStdlib else KImportThirdParty
  | [] => KOther
  end.

Definition same_name (p : option (list string)) (q : list string) : bool :=
  match p with Some p' => qualname_eqb p' q | None => false end.

Definition call_kind (e : expr) : kind :=
  let f := callee e in
  if same_name f ["mne"; "datasets"; "sample"; "data_path"] then KDatasetCall
  else if same_name f ["read_source_estimate"] then KDatasetCall
  else if same_name f ["mne_g3d"; "viz"; "plot_source_estimates"] then KPlotCall
  else if same_name f ["path"; "join"] then KPathJoin
  else if same_name f ["print"] then KPrint
  else KOther.

Definition kind_of (s : stmt) : kind :=
  match s with
  | Import m _ => import_kind m
  | ImportFrom m _ => import_kind m
  | Assign _ (Const _) => KConstant
  | Assign _ e => call_kind e
  | Expr e => call_kind e
  end.

(** The four kinds of operation the specification lists.  Three of them are
    statements: importing a third-party library, calling a dataset-loading
    function, calling the plotting function.  The fourth, displaying a
    widget, is no statement of its own. *)
Definition listed_kind (k : kind) : bool :=
  match k with
  | KImportThirdParty | KDatasetCall | KPlotCall => true
  | _ => false
  end.

(** The first word of a source line. *)
Definition first_word (line : string) : string :=
  let cs := snd (span is_blank (list_ascii_of_string line)) in
  string_of_list_ascii (fst (span is_ident cs)).

(** Keywords that open or continue a compound statement, or jump. *)
Definition control_keywords : list string :=
  [ "if"; "elif"; "else"; "for"; "while"; "try"; "except"; "finally";
    "with"; "def"; "class"; "return"; "raise"; "break"; "continue";
    "yield"; "async"; "await"; "assert"; "lambda"; "pass" ].

Definition is_control_line (line : string) : bool :=
  existsb (String.eqb (first_word line)) control_keywords.

(** Keywords of exception handling. *)
Definition handler_keywords : list string :=
  [ "try"; "except"; "finally"; "with"; "raise" ].

Definition is_handler_line (line : string) : bool :=
  existsb (String.eqb (first_word line)) handler_keywords.

Definition is_widget_display (o : Ipynb.output) : bool :=
  match o with
  | Ipynb.display_data mimes _ =>
      existsb (String.eqb "application/vnd.jupyter.widget-view+json") mimes
  | Ipynb.stream _ _ => false
  end.

(** *** The recorded times *)

(** The value of the decimal with digits [m], [d] of them after the point. *)
Definition decimal_value (m : Z) (d : nat) : Q :=
  m # Z.to_pos (10 ^ Z.of_nat d).

Definition float_tokens (ts : list token) : option (list Q) :=
  fold_right
    (fun t acc =>
       match t, acc with
       | TFloat m d, Some qs => Some (decimal_value m d :: qs)
       | _, _ => None
       end)
    (Some []) ts.

(** The array a stdout text starts with: the numbers between its first
    [[] and the [[]] that closes it. *)
Definition printed_array (lines : list string) : option (list Q) :=
  match cell_text lines with
  | open :: rest =>
      if Ascii.eqb open "[" then
        let (body, after) := span (fun c => negb (Ascii.eqb c "]")) rest in
        match after with
        | _ :: _ =>
            match lex (S (length body)) 1 body with
            | Some ts => float_tokens ts
            | None => None
            end
        | [] => None
        end
      else None
  | [] => None
  end.

(** The times the third code cell is recorded to have printed. *)
Definition recorded_times : list Q :=
  match printed_array Ipynb.recorded_stdout with
  | Some qs => qs
  | None => []
  end.

(** The value of a float or integer constant. *)
Definition constant_value (c : constant) : option Q :=
  match c with
  | CFloat m d => Some (decimal_value m d)
  | CInt z => Some (inject_Z z)
  | _ => None
  end.

Definition Qmem (q : Q) (l : list Q) : bool := existsb (Qeq_bool q) l.

(** The initial display time the plotting call is written with. *)
Definition initial_time : option Q :=
  match keyword "initial_time" (call_keywords plot_stmt) with
  | Some (Const c) => constant_value c
  | _ => None
  end.

End Notebook.

(* ================================================================= *)
(** ** A sample installation *)

(** One concrete choice of libraries and outside state, to run the notebook
    on: the sample dataset is either on disk or not, [os.path.join] is the
    POSIX one, and standard output collects the lines shown. *)

Module Sample.
Import Py Sem Notebook.

Inductive sample_obj := SourceEstimate | TimesArray | Figure.

Record outside := {
  dataset_present : bool;
  stdout : list string
}.

Definition starts_with_slash (s : string) : bool :=
  match s with
  | String c _ => Ascii.eqb c "/"
  | EmptyString => false
  end.

Fixpoint ends_with_slash (s : string) : bool :=
  match s with
  | EmptyString => false
  | String c EmptyString => Ascii.eqb c "/"
  | String _ rest => ends_with_slash rest
  end.

(** [posixpath.join] on two components. *)
Definition posix_join (a b : string) : string :=
  if starts_with_slash b then b
  else if (String.eqb a "" || ends_with_slash a)%bool then (a ++ b)%string
  else (a ++ "/" ++ b)%string.

Definition sample_root : string := "/home/user/mne_data/MNE-sample-data".

Definition type_error {A : Type} : outcome A :=
  Raised (Exception "TypeError" "unexpected arguments").

Definition sample_join (args : list (value sample_obj))
           (kwargs : list (string * value sample_obj))
  : outcome (data sample_obj) :=
  match args, kwargs with
  | [VData (DConst (CStr a)); VData (DConst (CStr b))], [] =>
      Returned (DConst (CStr (posix_join a b)))
  | _, _ => type_error
  end.

Definition sample_getattr (d : data sample_obj) (attr : string)
  : outcome (data sample_obj) :=
  match d with
  | DObj SourceEstimate =>
      if String.eqb attr "times" then Returned (DObj TimesArray)
      else Raised (Exception "AttributeError" attr)
  | _ => Raised (Exception "AttributeError" attr)
  end.

Definition shown (w : outside) (lines : list string) : outside :=
  {| dataset_present := dataset_present w; stdout := stdout w ++ lines |}.

Definition sample_call (f : value sample_obj) (args : list (value sample_obj))
           (kwargs : list (string * value sample_obj)) (w : outside)
  : outcome (data sample_obj) * outside :=
  match f with
  | VRef q =>
      if qualname_eqb q data_path_name then
        (Returned (DConst (CStr sample_root)), w)
      else if qualname_eqb q read_source_estimate_name then
        match args with
        | [VData (DConst (CStr p))] =>
            if dataset_present w
            then (Returned (DObj SourceEstimate), w)
            else (Raised (Exception "OSError" p), w)
        | _ => (type_error, w)
        end
      else if qualname_eqb q print_name then
        match args with
        | [VData (DObj TimesArray)] =>
            (Returned (DConst CNone), shown w (firstn 2 Ipynb.recorded_stdout))
        | _ => (Returned (DConst CNone), shown w ["..."])
        end
      else if qualname_eqb q plot_source_estimates_name then
        match args with
        | [VData (DObj SourceEstimate)] =>
            (Returned (DObj Figure), shown w (skipn 2 Ipynb.recorded_stdout))
        | _ => (type_error, w)
        end
      else (Raised (Exception "AttributeError" "no such function"), w)
  | VData _ => (type_error, w)
  end.

Definition library : Sem.library sample_obj outside :=
  {| lib_import := fun _ w => (Returned tt, w);
     lib_call := sample_call;
     lib_getattr := sample_getattr;
     os_path_join := sample_join |}.

(** The dataset is installed and nothing has been shown yet. *)
Definition installed : outside := {| dataset_present := true; stdout := [] |}.

(** The dataset is missing. *)
Definition missing : outside := {| dataset_present := false; stdout := [] |}.

(** The dataset is installed and the session has shown something before. *)
Definition busy : outside :=
  {| dataset_present := true; stdout := ["earlier output"] |}.

End Sample.

(* ================================================================= *)
(** ** The cells in a kernel session *)

(** The cells of a notebook can be run one at a time, in any order, in a
    session that already holds variables.  What follows runs chosen cells
    from a given set of variables. *)

Module Kernel.
Import Py Sem Notebook.

(** The names an expression reads. *)
Fixpoint names_read (e : expr) : list string :=
  match e with
  | Const _ => []
  | Name x => [x]
  | Attribute e' _ => names_read e'
  | Call f args kws =>
      names_read f
      ++ flat_map names_read args
      ++ flat_map (fun kw => names_read (snd kw)) kws
  end.

Definition stmt_reads (s : stmt) : list string :=
  match s with
  | Assign _ e => names_read e
  | Expr e => names_read e
  | Import _ _ => []
  | ImportFrom _ _ => []
  end.

(** The name a statement binds. *)
Definition stmt_binds (s : stmt) : list string :=
  match s with
  | Import m None => firstn 1 m
  | Import _ (Some x) => [x]
  | ImportFrom _ x => [x]
  | Assign x _ => [x]
  | Expr _ => []
  end.

(** Whether a value is a module [top] or a member of it. *)
Definition refers_to {obj : Type} (top : string) (v : value obj) : bool :=
  match v with
  | VRef (t :: _) => String.eqb t top
  | _ => false
  end.

(** Whether an operation calls into [top] or is handed something of it. *)
Definition event_uses {obj : Type} (top : string) (ev : event obj) : bool :=
  match ev with
  | EvCall f args kwargs _ =>
      refers_to top f
      || existsb (refers_to top) args
      || existsb (fun kw => refers_to top (snd kw)) kwargs
  | _ => false
  end.

Definition map_outcome {A B : Type} (f : A -> B) (r : outcome A) : outcome B :=
  match r with
  | Returned a => Returned (f a)
  | Raised e => Raised e
  end.

Section Runs.

Context {obj W : Type} (L : library obj W).

(** The third code cell run first in a fresh session. *)
Definition plot_cell_alone : M obj W (env (obj := obj)) :=
  exec_cells L [] [plot_ast].

(** The second and third code cells, the first one skipped. *)
Definition without_first_cell : M obj W (env (obj := obj)) :=
  exec_cells L [] [import_g3d_ast; plot_ast].

(** The first and third code cells, the second one skipped. *)
Definition without_second_cell : M obj W (env (obj := obj)) :=
  exec_cells L [] [imports_ast; plot_ast].

(** All the cells, in a session that holds the variables [rho]. *)
Definition session_from (rho : env (obj := obj)) : M obj W (env (obj := obj)) :=
  exec_cells L rho program.

End Runs.

(** The operations of a run of the first and third code cells in which
    every operation returns. *)
Definition schedule_without_second_cell : list operation :=
  [ OpImport ["os"; "path"];
    OpImport ["mne"];
    OpImport ["mne"];
    OpImport ["numpy"];
    OpCall data_path_name;
    OpCall os_path_join_name;
    OpCall os_path_join_name;
    OpCall read_source_estimate_name;
    OpGetattr "times";
    OpCall print_name ].

(** The variables of a completed session on the sample installation. *)
Definition sample_variables : env (obj := Sample.sample_obj) :=
  [ ("fig", VData (DObj Sample.Figure));
    ("stc", VData (DObj Sample.SourceEstimate));
    ("act_data",
     str "/home/user/mne_data/MNE-sample-data/MEG/sample/sample_audvis-meg-eeg");
    ("subjects_dir", str "/home/user/mne_data/MNE-sample-data/subjects");
    ("subject", str "sample");
    ("data_path", str "/home/user/mne_data/MNE-sample-data");
    ("mne_g3d", VRef ["mne_g3d"]);
    ("np", VRef ["numpy"]);
    ("read_source_estimate", VRef ["mne"; "read_source_estimate"]);
    ("mne", VRef ["mne"]);
    ("path", VRef ["os"; "path"]) ].


(** A session in which [print] has been assigned a string. *)
Definition shadowing_variables : env (obj := Sample.sample_obj) :=
  [ ("print", str "not a function") ].

End Kernel.

(* ================================================================= *)
(** ** An installation with print options *)

(** What [print] writes for an array is numpy's business and depends on the
    print options of the process.  In this installation the outside holds one
    of them, the threshold above which an array is shown summarized; the
    dataset is always there. *)

Module Options.
Import Py Sem Notebook.

Record outside := {
  threshold : nat;
  stdout : list string
}.

(** The text written for the 25 recorded times: in full, as the notebook
    records it, or summarized when the array is longer than the threshold. *)
Definition times_text (threshold : nat) : list string :=
  if (25 <=? threshold)%nat then firstn 2 Ipynb.recorded_stdout
  else [ "[0.   0.01 0.02 ... 0.22 0.23 0.24]" ].

Definition shown (w : outside) (lines : list string) : outside :=
  {| threshold := threshold w; stdout := stdout w ++ lines |}.

Definition options_call (f : value Sample.sample_obj)
           (args : list (value Sample.sample_obj))
           (kwargs : list (string * value Sample.sample_obj)) (w : outside)
  : outcome (data Sample.sample_obj) * outside :=
  match f with
  | VRef q =>
      if qualname_eqb q data_path_name then
        (Returned (DConst (CStr Sample.sample_root)), w)
      else if qualname_eqb q read_source_estimate_name then
        match args with
        | [VData (DConst (CStr _))] => (Returned (DObj Sample.SourceEstimate), w)
        | _ => (Sample.type_error, w)
        end
      else if qualname_eqb q print_name then
        match args with
        | [VData (DObj Sample.TimesArray)] =>
            (Returned (DConst CNone), shown w (times_text (threshold w)))
        | _ => (Returned (DConst CNone), shown w ["..."])
        end
      else if qualname_eqb q plot_source_estimates_name then
        match args with
        | [VData (DObj Sample.SourceEstimate)] =>
            (Returned (DObj Sample.Figure),
             shown w (skipn 2 Ipynb.recorded_stdout))
        | _ => (Sample.type_error, w)
        end
      else (Raised (Exception "AttributeError" "no such function"), w)
  | VData _ => (Sample.type_error, w)
  end.

Definition library : Sem.library Sample.sample_obj outside :=
  {| lib_import := fun _ w => (Returned tt, w);
     lib_call := options_call;
     lib_getattr := Sample.sample_getattr;
     os_path_join := Sample.sample_join |}.

(** numpy's default threshold; nothing shown yet. *)
Definition default : outside := {| threshold := 1000; stdout := [] |}.

(** A process in which [numpy.set_printoptions(threshold=5)] was called
    before; nothing shown yet. *)
Definition summarizing : outside := {| threshold := 5; stdout := [] |}.

End Options.

(* ================================================================= *)
(** ** Properties *)

Import Py Sem Notebook.

(** *** Tactics: case analysis on what the libraries answer *)

Ltac ask_library :=
  match goal with
  | |- context [lib_import ?L ?m ?w] =>
      let e := fresh "e" in let w' := fresh "w" in
      destruct (lib_import L m w) as [[[]|e] w'] eqn:?
  | |- context [lib_call ?L ?f ?a ?k ?w] =>
      let d := fresh "d" in let e := fresh "e" in let w' := fresh "w" in
      destruct (lib_call L f a k w) as [[d|e] w'] eqn:?
  | |- context [os_path_join ?L ?a ?k] =>
      let d := fresh "d" in let e := fresh "e" in
      destruct (os_path_join L a k) as [d|e] eqn:?
  | |- context [lib_getattr ?L ?x ?a] =>
      let d := fresh "d" in let e := fresh "e" in
      destruct (lib_getattr L x a) as [d|e] eqn:?
  end.

Ltac unfold_run :=
  cbv [notebook session cell_imports cell_import_g3d cell_plot program
       imports_ast import_g3d_ast plot_ast exec_cells exec_cell exec eval
       load_name lookup bind ret raise import_ call getattr is_os_path_join
       qualname_eqb os_path_join_name data_path_name read_source_estimate_name
       print_name plot_source_estimates_name
       builtin_names existsb
       result world trace raised fst snd app
       String.eqb Ascii.eqb Bool.eqb andb orb].

Ltac every_run := unfold_run; repeat (ask_library; cbv beta iota).

Ltac split_in :=
  repeat match goal with
         | H : _ \/ _ |- _ => destruct H as [H | H]
         | H : False |- _ => destruct H
         end.

Ltac read_log :=
  cbv [returned_by calls_to printed filter is_call_to map call_arguments
       qualname_eqb data_path_name read_source_estimate_name print_name
       plot_source_estimates_name String.eqb Ascii.eqb Bool.eqb andb
       expected_read_arguments expected_printed expected_plot_arguments].

(** *** The syntax is the source's *)

(** The source of every code cell parses to the syntax given for it. *)
Lemma parse_code_cells :
  map (fun c => parse (Ipynb.source c)) Ipynb.code_cells = map Some program.
Proof. vm_compute. reflexivity. Qed.

(** The parser takes straight-line cells only: a compound statement, a
    handler or a keyword argument before a positional one is refused. *)
Example parse_refuses_blocks :
  parse ["if stc:"; "    print(stc)"] = None
  /\ parse ["try:"; "    stc = read_source_estimate(act_data)";
            "except IOError:"; "    pass"] = None
  /\ parse ["for t in stc.times: print(t)"] = None
  /\ parse ["f(a=1, b)"] = None.
Proof. repeat split; vm_compute; reflexivity. Qed.

Example parse_nested_calls :
  parse ["x = f(g(1), h.k(a, b=2.50))(3)"]
  = Some [ Assign "x"
             (Call (Call (Name "f")
                         [ Call (Name "g") [Const (CInt 1)] [];
                           Call (Attribute (Name "h") "k") [Name "a"]
                                [("b", Const (CFloat 250 2))] ]
                         [])
                   [Const (CInt 3)] []) ].
Proof. vm_compute. reflexivity. Qed.

(** The session computed from the parsed cells and the session written out
    by hand are the same run. *)
Lemma session_notebook {obj W : Type} (L : library obj W) (w : W) :
  raised (result (session L w)) = raised (result (notebook L w))
  /\ world (session L w) = world (notebook L w)
  /\ trace (session L w) = trace (notebook L w).
Proof.
  unfold_run; cbv [plot_keywords str int float boolean none].
  repeat (ask_library; cbv beta iota; try (repeat split; reflexivity)).
Qed.

(** *** The sample installation *)

(** With the dataset installed the run returns the figure and shows what
    the notebook file records; without it the load raises and the run ends
    there. *)
Example sample_run :
  result (notebook Sample.library Sample.installed)
  = Returned (DObj Sample.Figure)
  /\ Sample.stdout (world (notebook Sample.library Sample.installed))
     = Ipynb.recorded_stdout
  /\ map operation_of (trace (notebook Sample.library Sample.installed))
     = schedule.
Proof. repeat split; vm_compute; reflexivity. Qed.

Example sample_run_missing_dataset :
  result (notebook Sample.library Sample.missing)
  = Raised (Exception "OSError"
      "/home/user/mne_data/MNE-sample-data/MEG/sample/sample_audvis-meg-eeg")
  /\ Sample.stdout (world (notebook Sample.library Sample.missing)) = []
  /\ map operation_of (trace (notebook Sample.library Sample.missing))
     = firstn 9 schedule.
Proof. repeat split; vm_compute; reflexivity. Qed.

(** With the POSIX [join], a relative component stays under the root. *)
Lemma posix_join_under_root (root name : string) :
  Sample.starts_with_slash name = false ->
  String.prefix root (Sample.posix_join root name) = true.
Proof.
  intros Hrel. unfold Sample.posix_join. rewrite Hrel.
  assert (Hp : forall a b, String.prefix a (a ++ b) = true).
  { induction a as [|c a IH]; intros b; cbn.
    - destruct b; reflexivity.
    - destruct (ascii_dec c c); [apply IH | congruence]. }
  destruct (String.eqb root "" || Sample.ends_with_slash root)%bool; apply Hp.
Qed.

(** *** Lists *)

Lemma filter_none {A : Type} (p : A -> bool) (l : list A) :
  Forall (fun x => p x = false) l -> filter p l = [].
Proof.
  induction 1 as [|x l' Hx _ IH]; cbn.
  - reflexivity.
  - rewrite Hx. exact IH.
Qed.

(** When only the last element of a list satisfies [p], the list splits
    around an element satisfying [p] in one way. *)
Lemma last_match_split {A : Type} (p : A -> bool) (l pre post : list A)
      (x ev : A) :
  pre ++ ev :: post = l ++ [x] ->
  p ev = true ->
  forallb (fun y => negb (p y)) l = true ->
  pre = l /\ ev = x /\ post = [].
Proof.
  revert pre. induction l as [|y l IH]; intros pre Heq Hev Hl.
  - destruct pre as [|a pre]; cbn in Heq.
    + injection Heq as -> ->. auto.
    + injection Heq as _ Heq. destruct pre; discriminate Heq.
  - cbn in Hl. apply andb_prop in Hl as [Hy Hl].
    destruct pre as [|a pre]; cbn in Heq.
    + injection Heq as -> _. rewrite Hev in Hy. discriminate Hy.
    + injection Heq as -> Heq.
      destruct (IH pre Heq Hev Hl) as (-> & -> & ->). auto.
Qed.

(** *** What a call in the log tells about the run *)

(** A plotting call in the log means the run went all the way. *)
Lemma plot_call_inv {obj W : Type} (L : library obj W) (w : W)
      (args : list (value obj)) (kwargs : list (string * value obj))
      (r : outcome (data obj)) :
  In (EvCall (VRef plot_source_estimates_name) args kwargs r)
     (trace (notebook L w)) ->
  exists root subjects_dir act_data stc times shown,
    trace (notebook L w)
    = load_events root subjects_dir act_data (Returned stc)
      ++ render_events subjects_dir stc times shown r
    /\ args = [VData stc]
    /\ kwargs = plot_keywords (str "sample") (VData subjects_dir)
    /\ os_path_join L [VData root; str "subjects"] [] = Returned subjects_dir
    /\ os_path_join L [VData root; str "MEG/sample/sample_audvis-meg-eeg"] []
       = Returned act_data
    /\ lib_getattr L stc "times" = Returned times.
Proof.
  every_run.
  all: cbn [In]; intros H; split_in; try discriminate H.
  all: injection H as <- <- <-.
  all: do 6 eexists; repeat split; eauto.
Qed.

(** A load call in the log means the run came through the imports, the
    dataset root and the two joins; its outcome is the library's answer. *)
Lemma read_call_inv {obj W : Type} (L : library obj W) (w : W)
      (args : list (value obj)) (kwargs : list (string * value obj))
      (r : outcome (data obj)) :
  In (EvCall (VRef read_source_estimate_name) args kwargs r)
     (trace (notebook L w)) ->
  exists root subjects_dir act_data rest w0 w1,
    trace (notebook L w)
    = load_events root subjects_dir act_data r ++ rest
    /\ args = [VData act_data]
    /\ kwargs = []
    /\ os_path_join L [VData root; str "subjects"] [] = Returned subjects_dir
    /\ os_path_join L [VData root; str "MEG/sample/sample_audvis-meg-eeg"] []
       = Returned act_data
    /\ lib_call L (VRef read_source_estimate_name) [VData act_data] [] w0
       = (r, w1)
    /\ Forall (fun ev => is_call_to read_source_estimate_name ev = false
                         /\ is_call_to data_path_name ev = false) rest.
Proof.
  every_run.
  all: cbn [In]; intros H; split_in; try discriminate H.
  all: injection H as <- <- <-.
  all: do 6 eexists; repeat split; eauto.
  all: repeat constructor.
Qed.

(** In every run, what the load call, the print and the plotting call are
    given is a function of what [data_path()] and [read_source_estimate]
    returned. *)
Lemma arguments_from_returns {obj W : Type} (L : library obj W) (w : W) :
  map call_arguments
      (calls_to read_source_estimate_name (trace (notebook L w)))
  = expected_read_arguments L
      (returned_by data_path_name (trace (notebook L w)))
  /\ printed (trace (notebook L w))
     = expected_printed L
         (returned_by read_source_estimate_name (trace (notebook L w)))
  /\ (forall c,
        In c (calls_to plot_source_estimates_name (trace (notebook L w))) ->
        Some (call_arguments c)
        = expected_plot_arguments L
            (returned_by data_path_name (trace (notebook L w)))
            (returned_by read_source_estimate_name (trace (notebook L w)))).
Proof.
  every_run.
  all: read_log.
  all: repeat match goal with
              | H : ?x = _ |- context [?x] => rewrite H
              end.
  all: repeat split; try reflexivity.
  all: try (intros c Hc; cbn in Hc; split_in; subst c; reflexivity).
Qed.

(** *** Nothing is caught: the statement language in general *)

Section Uncaught.

Context {obj W : Type} (L : library obj W).

Lemma all_returned_app (t1 t2 : list (event obj)) :
  all_returned t1 -> all_returned t2 -> all_returned (t1 ++ t2).
Proof.
  unfold all_returned. intros H1 H2. rewrite forallb_app, H1, H2. reflexivity.
Qed.

Lemma all_returned_removelast (t : list (event obj)) :
  all_returned t -> all_returned (removelast t).
Proof.
  unfold all_returned. induction t as [|ev t IH]; intros H.
  - reflexivity.
  - cbn in H. apply andb_prop in H as [Hev Ht].
    destruct t as [|ev' t']; [reflexivity|].
    change (removelast (ev :: ev' :: t')) with (ev :: removelast (ev' :: t')).
    cbn [forallb]. rewrite Hev. exact (IH Ht).
Qed.

Lemma last_raised_app (t1 t2 : list (event obj)) :
  t2 <> [] -> last_raised (t1 ++ t2) = last_raised t2.
Proof.
  intros Hne. unfold last_raised. rewrite rev_app_distr.
  destruct (rev t2) as [|ev r] eqn:Hr.
  - apply (f_equal (@rev _)) in Hr. rewrite rev_involutive in Hr.
    contradiction.
  - reflexivity.
Qed.

Ltac one_event :=
  cbn; first [ reflexivity | split; [reflexivity | left; reflexivity] ].

Lemma uncaught_ret {A : Type} (a : A) :
  uncaught (obj := obj) (W := W) (ret a).
Proof. intros w. reflexivity. Qed.

Lemma uncaught_name_error {A : Type} (x : string) :
  uncaught (obj := obj) (W := W) (raise (A := A) (Exception "NameError" x)).
Proof.
  intros w. cbn. split; [reflexivity|].
  right. split; [reflexivity | eauto].
Qed.

Lemma uncaught_bind {A B : Type} (m : M obj W A) (k : A -> M obj W B) :
  uncaught m -> (forall a, uncaught (k a)) -> uncaught (bind m k).
Proof.
  intros Hm Hk w. unfold bind. specialize (Hm w).
  destruct (m w) as [[[a|e] w1] t1]; [|exact Hm].
  specialize (Hk a w1).
  destruct (k a w1) as [[[b|e] w2] t2].
  - apply all_returned_app; assumption.
  - destruct Hk as [Hrl Hlast].
    destruct t2 as [|ev t2'].
    + rewrite app_nil_r. split.
      * apply all_returned_removelast. exact Hm.
      * destruct Hlast as [Hl | [_ Hx]]; [discriminate Hl|].
        right. split; assumption.
    + rewrite removelast_app by discriminate. split.
      * apply all_returned_app; assumption.
      * destruct Hlast as [Hl | [Hall Hx]].
        -- left. rewrite last_raised_app by discriminate. exact Hl.
        -- right. split; [apply all_returned_app|]; assumption.
Qed.

Lemma uncaught_import (m : qualname) : uncaught (import_ L m).
Proof.
  intros w. unfold import_.
  destruct (lib_import L m w) as [[[]|e] w1]; one_event.
Qed.

Lemma uncaught_call (f : value obj) (args : list (value obj))
      (kwargs : list (string * value obj)) :
  uncaught (call L f args kwargs).
Proof.
  intros w. unfold call.
  destruct (is_os_path_join f).
  - destruct (os_path_join L args kwargs) as [d|e]; one_event.
  - destruct (lib_call L f args kwargs w) as [[d|e] w1]; one_event.
Qed.

Lemma uncaught_getattr (v : value obj) (attr : string) :
  uncaught (getattr L v attr).
Proof.
  intros w. destruct v as [d|q]; cbn.
  - destruct (lib_getattr L d attr) as [x|e]; one_event.
  - reflexivity.
Qed.

Lemma uncaught_eval (rho : env) (e : expr) : uncaught (eval L rho e).
Proof.
  induction e as [c|x|e a IH|f args kws IHf IHargs IHkws]
    using expr_rect_args; cbn [eval].
  - apply uncaught_ret.
  - unfold load_name. destruct (lookup rho x).
    + apply uncaught_ret.
    + destruct (existsb (String.eqb x) builtin_names).
      * apply uncaught_ret.
      * apply uncaught_name_error.
  - apply uncaught_bind; [exact IH|]. intros v. apply uncaught_getattr.
  - apply uncaught_bind; [exact IHf|]. intros fv.
    apply uncaught_bind.
    { induction IHargs as [|e' es He' _ IHes].
      - apply uncaught_ret.
      - apply uncaught_bind; [exact He'|]. intros v.
        apply uncaught_bind; [exact IHes|]. intros vs. apply uncaught_ret. }
    intros avs. apply uncaught_bind.
    { induction IHkws as [|[k e'] ks He' _ IHks].
      - apply uncaught_ret.
      - apply uncaught_bind; [exact He'|]. intros v.
        apply uncaught_bind; [exact IHks|]. intros vs. apply uncaught_ret. }
    intros kvs. apply uncaught_bind; [apply uncaught_call|].
    intros d. apply uncaught_ret.
Qed.

Lemma uncaught_exec (rho : env) (s : stmt) : uncaught (exec L rho s).
Proof.
  destruct s as [m [x|]|m x|x e|e]; cbn [exec].
  all: apply uncaught_bind;
    [ first [apply uncaught_import | apply uncaught_eval]
    | intros; apply uncaught_ret ].
Qed.

Lemma uncaught_exec_cell (ss : list stmt) (rho : env) :
  uncaught (exec_cell L rho ss).
Proof.
  revert rho. induction ss as [|s ss IH]; intros rho; cbn [exec_cell].
  - apply uncaught_ret.
  - apply uncaught_bind; [apply uncaught_exec | exact IH].
Qed.

(** Whatever cells are run, an exception of a library operation ends the
    run and leaves it unchanged. *)
Lemma uncaught_exec_cells (cs : list (list stmt)) (rho : env) :
  uncaught (exec_cells L rho cs).
Proof.
  revert rho. induction cs as [|c cs IH]; intros rho; cbn [exec_cells].
  - apply uncaught_ret.
  - apply uncaught_bind; [apply uncaught_exec_cell | exact IH].
Qed.

End Uncaught.

(** The notebook's own session catches nothing. *)
Lemma uncaught_session {obj W : Type} (L : library obj W) :
  uncaught (session L).
Proof. apply uncaught_exec_cells. Qed.

(* ================================================================= *)
(** ** The claims *)

(** *** C1: the plotting call's configuration *)

(** C1: whenever the plotting call [mne_g3d.viz.plot_source_estimates] is
    made, each of the ten configuration options (surface 'inflated', hemi
    'both', colormap 'hot', smoothing_steps 10, transparent False, alpha 1.0,
    clim 'auto', size 800, background "black", initial_time 0.23) is written
    in the source as a literal constant and the call receives exactly that
    constant under that keyword; and the log holds one plotting call. *)
Theorem plot_call_configuration {obj W : Type} (L : library obj W) (w : W)
        (args : list (value obj)) (kwargs : list (string * value obj))
        (r : outcome (data obj)) :
  In (EvCall (VRef plot_source_estimates_name) args kwargs r)
     (trace (notebook L w)) ->
  (forall k c, In (k, c) configuration ->
     keyword k (call_keywords plot_stmt) = Some (Const c)
     /\ keyword k kwargs = Some (VData (DConst c)))
  /\ length (calls_to plot_source_estimates_name (trace (notebook L w))) = 1%nat.
Proof.
  intros H.
  destruct (plot_call_inv L w args kwargs r H)
    as (root & sd & act & stc & times & shown & Htr & _ & -> & _).
  split.
  - intros k c Hin. cbn in Hin. split_in.
    all: injection Hin as <- <-; split; reflexivity.
  - rewrite Htr. reflexivity.
Qed.

(** On the sample installation the plotting call is made, with these
    keyword arguments. *)
Lemma plot_call_configuration_witness :
  In (EvCall (VRef plot_source_estimates_name)
             [VData (DObj Sample.SourceEstimate)]
             (plot_keywords (str "sample")
                (str "/home/user/mne_data/MNE-sample-data/subjects"))
             (Returned (DObj Sample.Figure)))
     (trace (notebook Sample.library Sample.installed))
  /\ ((forall k c, In (k, c) configuration ->
         keyword k (call_keywords plot_stmt) = Some (Const c)
         /\ keyword k
              (plot_keywords (str "sample")
                 (str (obj := Sample.sample_obj)
                      "/home/user/mne_data/MNE-sample-data/subjects"))
            = Some (VData (DConst c)))
      /\ length (calls_to plot_source_estimates_name
                   (trace (notebook Sample.library Sample.installed))) = 1%nat).
Proof.
  assert (Hin : In (EvCall (VRef plot_source_estimates_name)
             [VData (DObj Sample.SourceEstimate)]
             (plot_keywords (str "sample")
                (str "/home/user/mne_data/MNE-sample-data/subjects"))
             (Returned (DObj Sample.Figure)))
     (trace (notebook Sample.library Sample.installed))).
  { vm_compute. tauto. }
  split; [exact Hin | exact (plot_call_configuration _ _ _ _ _ Hin)].
Defined.

(** *** C2: exceptions *)

(** C2: the run ends with an exception exactly when some operation handed
    to a library (an import, a call, an attribute read) raised one; the
    exception that leaves the notebook is the one that operation raised; the
    operation is the last one of the run, every operation before it having
    returned; and no source line starts with a keyword of exception
    handling. *)
Theorem exceptions_propagate {obj W : Type} (L : library obj W) (w : W) :
  ((exists e, result (notebook L w) = Raised e)
   <-> existsb event_raises (trace (notebook L w)) = true)
  /\ (forall ev e,
        In ev (trace (notebook L w)) -> event_raised ev = Some e ->
        result (notebook L w) = Raised e)
  /\ raised (result (notebook L w)) = last_raised (trace (notebook L w))
  /\ forallb (fun ev => negb (event_raises ev))
             (removelast (trace (notebook L w))) = true
  /\ forallb (fun l => negb (is_handler_line l)) Ipynb.code_lines = true.
Proof.
  every_run.
  all: split; [split; [intros [e' He']; first [discriminate He' | reflexivity]
                      | intros He'; first [discriminate He' | eauto]]|].
  all: split; [intros ev e' Hin Hev; cbn in Hin; split_in; subst ev;
               first [discriminate Hev | injection Hev as ->; reflexivity]|].
  all: repeat split; reflexivity.
Qed.

(** *** C3: kinds of statements *)

(** C3, as stated, fails: not every statement of the notebook is an import
    of a third-party library, a call of a dataset-loading function or the
    plotting call.  [print(stc.times)] is a statement of the third code
    cell, and it is output of another kind. *)
Lemma listed_kinds_counterexample :
  ~ (forall s, In s statements -> listed_kind (kind_of s) = true).
Proof.
  intros H.
  assert (Hp : In (Expr (Call (Name "print")
                               [Attribute (Name "stc") "times"] []))
                  statements).
  { cbn. tauto. }
  apply H in Hp. discriminate Hp.
Qed.

(** C3, amended: the code cells are sequences of simple statements (the
    parser takes nothing else) and hold, in order: an import of the standard
    library's [os.path]; four imports of third-party libraries; the call of
    [mne.datasets.sample.data_path]; the binding of a string constant; two
    [path.join] calls; the call of [read_source_estimate]; one print; and
    one plotting call.  The statements outside the specification's list are
    the [os.path] import, the constant, the two joins and the print.  No
    source line starts with a control-flow keyword.  The only recorded
    outputs are those of the third code cell: a text stream and one widget
    display. *)
Theorem statement_kinds :
  map (fun c => parse (Ipynb.source c)) Ipynb.code_cells = map Some program
  /\ map kind_of statements
     = [ KImportStdlib; KImportThirdParty; KImportThirdParty;
         KImportThirdParty; KImportThirdParty;
         KDatasetCall; KConstant; KPathJoin; KPathJoin; KDatasetCall;
         KPrint; KPlotCall ]
  /\ filter (fun s => negb (listed_kind (kind_of s))) statements
     = [ Import ["os"; "path"] (Some "path");
         Assign "subject" (Const (CStr "sample"));
         Assign "subjects_dir"
           (Call (Attribute (Name "path") "join")
                 [Name "data_path"; Const (CStr "subjects")] []);
         Assign "act_data"
           (Call (Attribute (Name "path") "join")
                 [Name "data_path";
                  Const (CStr "MEG/sample/sample_audvis-meg-eeg")] []);
         Expr (Call (Name "print") [Attribute (Name "stc") "times"] []) ]
  /\ forallb (fun l => negb (is_control_line l)) Ipynb.code_lines = true
  /\ flat_map Ipynb.outputs Ipynb.cells = Ipynb.outputs Ipynb.cell_plot
  /\ map is_widget_display (Ipynb.outputs Ipynb.cell_plot) = [false; true].
Proof.
  split; [exact parse_code_cells|].
  repeat split; vm_compute; reflexivity.
Qed.

(** *** C4: the load call *)

(** C4: whenever [read_source_estimate] is called, it is called with one
    positional argument and no keyword argument; the argument is
    [path.join(data_path, 'MEG/sample/sample_audvis-meg-eeg')] for the value
    [data_path()] returned; the call's outcome is what the library function
    gives on that argument; and it is the only load call of the run. *)
Theorem read_call_argument {obj W : Type} (L : library obj W) (w : W)
        (args : list (value obj)) (kwargs : list (string * value obj))
        (r : outcome (data obj)) :
  In (EvCall (VRef read_source_estimate_name) args kwargs r)
     (trace (notebook L w)) ->
  exists root act_data,
    In (EvCall (VRef data_path_name) [] [] (Returned root))
       (trace (notebook L w))
    /\ os_path_join L [VData root; str "MEG/sample/sample_audvis-meg-eeg"] []
       = Returned act_data
    /\ args = [VData act_data]
    /\ kwargs = []
    /\ (exists w0 w1,
          lib_call L (VRef read_source_estimate_name) args kwargs w0 = (r, w1))
    /\ calls_to read_source_estimate_name (trace (notebook L w))
       = [EvCall (VRef read_source_estimate_name) args kwargs r].
Proof.
  intros H.
  destruct (read_call_inv L w args kwargs r H)
    as (root & sd & act & rest & w0 & w1 & Htr & -> & -> & _ & Hj & Hc & Hrest).
  exists root, act. rewrite Htr. repeat split; eauto.
  - apply in_or_app. left. cbn. tauto.
  - unfold calls_to. rewrite filter_app, (filter_none _ rest).
    + reflexivity.
    + revert Hrest. apply Forall_impl. tauto.
Qed.

(** On the sample installation the load call is made and returns a source
    estimate. *)
Lemma read_call_argument_witness :
  In (EvCall (VRef read_source_estimate_name)
        [str "/home/user/mne_data/MNE-sample-data/MEG/sample/sample_audvis-meg-eeg"]
        [] (Returned (DObj Sample.SourceEstimate)))
     (trace (notebook Sample.library Sample.installed))
  /\ exists root act_data,
       In (EvCall (VRef data_path_name) [] [] (Returned root))
          (trace (notebook Sample.library Sample.installed))
       /\ os_path_join Sample.library
            [VData root; str "MEG/sample/sample_audvis-meg-eeg"] []
          = Returned act_data
       /\ [str "/home/user/mne_data/MNE-sample-data/MEG/sample/sample_audvis-meg-eeg"]
          = [VData act_data]
       /\ @nil (string * value Sample.sample_obj) = []
       /\ (exists w0 w1,
             lib_call Sample.library (VRef read_source_estimate_name)
               [str "/home/user/mne_data/MNE-sample-data/MEG/sample/sample_audvis-meg-eeg"]
               [] w0
             = (Returned (DObj Sample.SourceEstimate), w1))
       /\ calls_to read_source_estimate_name
            (trace (notebook Sample.library Sample.installed))
          = [EvCall (VRef read_source_estimate_name)
               [str "/home/user/mne_data/MNE-sample-data/MEG/sample/sample_audvis-meg-eeg"]
               [] (Returned (DObj Sample.SourceEstimate))].
Proof.
  assert (Hin : In (EvCall (VRef read_source_estimate_name)
        [str "/home/user/mne_data/MNE-sample-data/MEG/sample/sample_audvis-meg-eeg"]
        [] (Returned (DObj Sample.SourceEstimate)))
     (trace (notebook Sample.library Sample.installed))).
  { vm_compute. tauto. }
  split; [exact Hin | exact (read_call_argument _ _ _ _ _ Hin)].
Defined.

(** *** C5: from the load to the plot *)

(** C5: whenever the plotting call is made, the log ends with the load call
    that returned [stc], one read of [stc.times], the print of the value
    read, and the plotting call; nothing else happens in between; the read
    gives what the library's attribute function gives on [stc]; the plotting
    call's one positional argument is the [stc] the load returned; and the
    load returned once. *)
Theorem stc_passed_unchanged {obj W : Type} (L : library obj W) (w : W)
        (args : list (value obj)) (kwargs : list (string * value obj))
        (r : outcome (data obj)) :
  In (EvCall (VRef plot_source_estimates_name) args kwargs r)
     (trace (notebook L w)) ->
  exists before act_data stc times shown,
    trace (notebook L w)
    = before
      ++ [ EvCall (VRef read_source_estimate_name) [VData act_data] []
                  (Returned stc);
           EvGetattr stc "times" (Returned times);
           EvCall (VRef print_name) [VData times] [] (Returned shown);
           EvCall (VRef plot_source_estimates_name) args kwargs r ]
    /\ args = [VData stc]
    /\ lib_getattr L stc "times" = Returned times
    /\ returned_by read_source_estimate_name (trace (notebook L w)) = [stc].
Proof.
  intros H.
  destruct (plot_call_inv L w args kwargs r H)
    as (root & sd & act & stc & times & shown & Htr & -> & -> & _ & _ & Hg).
  exists (removelast (load_events root sd act (Returned stc))),
         act, stc, times, shown.
  rewrite Htr. repeat split; try reflexivity; auto.
  destruct r; reflexivity.
Qed.

(** On the sample installation the source estimate the load returned is
    the one plotted. *)
Lemma stc_passed_unchanged_witness :
  In (EvCall (VRef plot_source_estimates_name)
             [VData (DObj Sample.SourceEstimate)]
             (plot_keywords (str "sample")
                (str "/home/user/mne_data/MNE-sample-data/subjects"))
             (Returned (DObj Sample.Figure)))
     (trace (notebook Sample.library Sample.installed))
  /\ exists before act_data stc times shown,
       trace (notebook Sample.library Sample.installed)
       = before
         ++ [ EvCall (VRef read_source_estimate_name) [VData act_data] []
                     (Returned stc);
              EvGetattr stc "times" (Returned times);
              EvCall (VRef print_name) [VData times] [] (Returned shown);
              EvCall (VRef plot_source_estimates_name)
                     [VData (DObj Sample.SourceEstimate)]
                     (plot_keywords (str "sample")
                        (str "/home/user/mne_data/MNE-sample-data/subjects"))
                     (Returned (DObj Sample.Figure)) ]
       /\ [VData (DObj Sample.SourceEstimate)] = [VData stc]
       /\ lib_getattr Sample.library stc "times" = Returned times
       /\ returned_by read_source_estimate_name
            (trace (notebook Sample.library Sample.installed)) = [stc].
Proof.
  assert (Hin : In (EvCall (VRef plot_source_estimates_name)
             [VData (DObj Sample.SourceEstimate)]
             (plot_keywords (str "sample")
                (str "/home/user/mne_data/MNE-sample-data/subjects"))
             (Returned (DObj Sample.Figure)))
     (trace (notebook Sample.library Sample.installed))).
  { vm_compute. tauto. }
  split; [exact Hin | exact (stc_passed_unchanged _ _ _ _ _ Hin)].
Defined.

(** *** C6: order of the operations *)

(** C6: in every run the operations happen in the order the source writes
    them (the five imports, [data_path()], the two joins, the load, the read
    of [stc.times], the print, the plotting call), the run stopping at some
    point of that list; every operation but the last has returned before the
    next begins; and when the plotting call happens, all the others have
    happened before it and returned, the load among them, and nothing
    follows. *)
Theorem operations_in_source_order {obj W : Type} (L : library obj W) (w : W) :
  map operation_of (trace (notebook L w))
  = firstn (length (trace (notebook L w))) schedule
  /\ forallb (fun ev => negb (event_raises ev))
             (removelast (trace (notebook L w))) = true
  /\ (forall before ev after,
        trace (notebook L w) = before ++ ev :: after ->
        operation_of ev = OpCall plot_source_estimates_name ->
        exists root subjects_dir act_data stc times shown,
          before
          = load_events root subjects_dir act_data (Returned stc)
            ++ [ EvGetattr stc "times" (Returned times);
                 EvCall (VRef print_name) [VData times] [] (Returned shown) ]
          /\ after = []).
Proof.
  split; [|split].
  - every_run. all: reflexivity.
  - every_run. all: reflexivity.
  - intros before ev after Hsplit Hop.
    destruct ev as [m r|d a r|[d|q] a k r]; try discriminate Hop.
    injection Hop as ->.
    assert (Hin : In (EvCall (VRef plot_source_estimates_name) a k r)
                     (trace (notebook L w))).
    { rewrite Hsplit. apply in_or_app. right. left. reflexivity. }
    destruct (plot_call_inv L w a k r Hin)
      as (root & sd & act & stc & times & shown & Htr & _).
    rewrite Htr in Hsplit.
    exists root, sd, act, stc, times, shown.
    change (load_events root sd act (Returned stc)
            ++ render_events sd stc times shown r)
      with ((load_events root sd act (Returned stc)
             ++ [ EvGetattr stc "times" (Returned times);
                  EvCall (VRef print_name) [VData times] [] (Returned shown) ])
            ++ [ EvCall (VRef plot_source_estimates_name) [VData stc]
                   (plot_keywords (str "sample") (VData sd)) r ])
      in Hsplit.
    destruct (last_match_split (is_call_to plot_source_estimates_name)
                _ _ _ _ _ (eq_sym Hsplit)) as (Hb & _ & Ha); auto.
Qed.

(** *** C7: size *)

(** C7: the code cells hold 23 source lines in all, the whole notebook 26
    with its markdown cells; both counts are below 70.  Recorded outputs are
    not counted. *)
Theorem notebook_is_short :
  (length Ipynb.code_lines < 70)%nat
  /\ length Ipynb.code_lines = 23%nat
  /\ length Ipynb.all_lines = 26%nat.
Proof. repeat split; vm_compute; lia. Qed.

(** *** C8: the two paths *)

(** C8: whenever the plotting call is made, [data_path()] was called once
    and returned a root; the keyword [subjects_dir] of the plotting call is
    [path.join(root, 'subjects')]; the one argument of the one load call is
    [path.join(root, 'MEG/sample/sample_audvis-meg-eeg')] for that same
    root; and the keyword [subject] is the string ['sample']. *)
Theorem paths_share_dataset_root {obj W : Type} (L : library obj W) (w : W)
        (args : list (value obj)) (kwargs : list (string * value obj))
        (r : outcome (data obj)) :
  In (EvCall (VRef plot_source_estimates_name) args kwargs r)
     (trace (notebook L w)) ->
  exists root subjects_dir act_data stc,
    calls_to data_path_name (trace (notebook L w))
    = [EvCall (VRef data_path_name) [] [] (Returned root)]
    /\ os_path_join L [VData root; str "subjects"] [] = Returned subjects_dir
    /\ os_path_join L [VData root; str "MEG/sample/sample_audvis-meg-eeg"] []
       = Returned act_data
    /\ keyword "subjects_dir" kwargs = Some (VData subjects_dir)
    /\ calls_to read_source_estimate_name (trace (notebook L w))
       = [EvCall (VRef read_source_estimate_name) [VData act_data] []
                 (Returned stc)]
    /\ keyword "subject" kwargs = Some (str "sample").
Proof.
  intros H.
  destruct (plot_call_inv L w args kwargs r H)
    as (root & sd & act & stc & times & shown & Htr & -> & -> & Hs & Ha & _).
  exists root, sd, act, stc.
  rewrite Htr. repeat split; try reflexivity; auto.
Qed.

(** On the sample installation both paths lie under the one dataset
    root. *)
Lemma paths_share_dataset_root_witness :
  In (EvCall (VRef plot_source_estimates_name)
             [VData (DObj Sample.SourceEstimate)]
             (plot_keywords (str "sample")
                (str "/home/user/mne_data/MNE-sample-data/subjects"))
             (Returned (DObj Sample.Figure)))
     (trace (notebook Sample.library Sample.installed))
  /\ exists root subjects_dir act_data stc,
       calls_to data_path_name
         (trace (notebook Sample.library Sample.installed))
       = [EvCall (VRef data_path_name) [] [] (Returned root)]
       /\ os_path_join Sample.library [VData root; str "subjects"] []
          = Returned subjects_dir
       /\ os_path_join Sample.library
            [VData root; str "MEG/sample/sample_audvis-meg-eeg"] []
          = Returned act_data
       /\ keyword "subjects_dir"
            (plot_keywords (str "sample")
               (str (obj := Sample.sample_obj)
                    "/home/user/mne_data/MNE-sample-data/subjects"))
          = Some (VData subjects_dir)
       /\ calls_to read_source_estimate_name
            (trace (notebook Sample.library Sample.installed))
          = [EvCall (VRef read_source_estimate_name) [VData act_data] []
                    (Returned stc)]
       /\ keyword "subject"
            (plot_keywords (str "sample")
               (str (obj := Sample.sample_obj)
                    "/home/user/mne_data/MNE-sample-data/subjects"))
          = Some (str "sample").
Proof.
  assert (Hin : In (EvCall (VRef plot_source_estimates_name)
             [VData (DObj Sample.SourceEstimate)]
             (plot_keywords (str "sample")
                (str "/home/user/mne_data/MNE-sample-data/subjects"))
             (Returned (DObj Sample.Figure)))
     (trace (notebook Sample.library Sample.installed))).
  { vm_compute. tauto. }
  split; [exact Hin | exact (paths_share_dataset_root _ _ _ _ _ Hin)].
Defined.

(** *** C9: determinism of the glue *)

(** C9, as stated, fails in its last part: equal returns of [data_path()]
    and [read_source_estimate] do not make the printed output the same.  With
    the print-options installation, run once with the default threshold and
    once with threshold 5, both starting with nothing shown: [data_path()]
    returns the same, the load returns the same, and the text on standard
    output differs. *)
Lemma same_returns_different_output :
  returned_by data_path_name (trace (notebook Options.library Options.default))
  = returned_by data_path_name
      (trace (notebook Options.library Options.summarizing))
  /\ returned_by read_source_estimate_name
       (trace (notebook Options.library Options.default))
     = returned_by read_source_estimate_name
         (trace (notebook Options.library Options.summarizing))
  /\ returned_by data_path_name (trace (notebook Options.library Options.default))
     = [DConst (CStr Sample.sample_root)]
  /\ returned_by read_source_estimate_name
       (trace (notebook Options.library Options.default))
     = [DObj Sample.SourceEstimate]
  /\ Options.stdout Options.default = Options.stdout Options.summarizing
  /\ printed (trace (notebook Options.library Options.default))
     = printed (trace (notebook Options.library Options.summarizing))
  /\ Options.stdout (world (notebook Options.library Options.default))
     <> Options.stdout (world (notebook Options.library Options.summarizing)).
Proof.
  repeat split; try (vm_compute; reflexivity).
  vm_compute. intros H. discriminate H.
Qed.

(** C9, amended: take two runs, from any two states of the outside, in which
    [data_path()] returned the same and [read_source_estimate] returned the
    same.  Then the load call is given the same arguments in both, the print
    is given the same value in both, and a plotting call of the one run is
    given the same positional and keyword arguments as a plotting call of the
    other.  In the source, every keyword argument of the plotting call other
    than [subject] and [subjects_dir] is a literal constant.  What text the
    print writes for its value is the library's and is not part of this. *)
Theorem glue_is_deterministic {obj W : Type} (L : library obj W) (w1 w2 : W) :
  returned_by data_path_name (trace (notebook L w1))
  = returned_by data_path_name (trace (notebook L w2)) ->
  returned_by read_source_estimate_name (trace (notebook L w1))
  = returned_by read_source_estimate_name (trace (notebook L w2)) ->
  map call_arguments (calls_to read_source_estimate_name (trace (notebook L w1)))
  = map call_arguments (calls_to read_source_estimate_name (trace (notebook L w2)))
  /\ printed (trace (notebook L w1)) = printed (trace (notebook L w2))
  /\ (forall c1 c2,
        In c1 (calls_to plot_source_estimates_name (trace (notebook L w1))) ->
        In c2 (calls_to plot_source_estimates_name (trace (notebook L w2))) ->
        call_arguments c1 = call_arguments c2)
  /\ Forall (fun kw => In (fst kw) ["subject"; "subjects_dir"]
                       \/ exists c, snd kw = Const c)
            (call_keywords plot_stmt).
Proof.
  intros Hroot Hstc.
  destruct (arguments_from_returns L w1) as (Hr1 & Hp1 & Hc1).
  destruct (arguments_from_returns L w2) as (Hr2 & Hp2 & Hc2).
  repeat split.
  - rewrite Hr1, Hr2, Hroot. reflexivity.
  - rewrite Hp1, Hp2, Hstc. reflexivity.
  - intros c1 c2 H1 H2.
    apply Hc1 in H1. apply Hc2 in H2.
    rewrite Hroot, Hstc, <- H2 in H1. injection H1 as H1. exact H1.
  - cbn.
    repeat (apply Forall_cons;
            [ first [ left; cbn; tauto | right; eexists; reflexivity ] | ]).
    apply Forall_nil.
Qed.

(** Two runs on the sample installation, one in a fresh session and one
    in a session that has shown output before, make the same calls. *)
Lemma glue_is_deterministic_witness :
  returned_by data_path_name (trace (notebook Sample.library Sample.installed))
  = returned_by data_path_name (trace (notebook Sample.library Sample.busy))
  /\ returned_by read_source_estimate_name
       (trace (notebook Sample.library Sample.installed))
     = returned_by read_source_estimate_name
         (trace (notebook Sample.library Sample.busy))
  /\ (map call_arguments
          (calls_to read_source_estimate_name
             (trace (notebook Sample.library Sample.installed)))
      = map call_arguments
          (calls_to read_source_estimate_name
             (trace (notebook Sample.library Sample.busy)))
      /\ printed (trace (notebook Sample.library Sample.installed))
         = printed (trace (notebook Sample.library Sample.busy))
      /\ (forall c1 c2,
            In c1 (calls_to plot_source_estimates_name
                     (trace (notebook Sample.library Sample.installed))) ->
            In c2 (calls_to plot_source_estimates_name
                     (trace (notebook Sample.library Sample.busy))) ->
            call_arguments c1 = call_arguments c2)
      /\ Forall (fun kw => In (fst kw) ["subject"; "subjects_dir"]
                           \/ exists c, snd kw = Const c)
                (call_keywords plot_stmt)).
Proof.
  assert (Hroot :
    returned_by data_path_name
      (trace (notebook Sample.library Sample.installed))
    = returned_by data_path_name
        (trace (notebook Sample.library Sample.busy))).
  { vm_compute. reflexivity. }
  assert (Hstc :
    returned_by read_source_estimate_name
      (trace (notebook Sample.library Sample.installed))
    = returned_by read_source_estimate_name
        (trace (notebook Sample.library Sample.busy))).
  { vm_compute. reflexivity. }
  exact (conj Hroot (conj Hstc (glue_is_deterministic _ _ _ Hroot Hstc))).
Defined.

(** *** C10: the initial time *)

(** C10: the plotting call is written with, and given, the initial time
    0.23.  The array at the head of the recorded standard output has 25
    numbers, the k-th being k/100 (0, 0.01, ..., 0.24); 0.23 is one of them,
    the one at index 23, and lies between the first, 0, and the last, 0.24.
    Numbers are compared as the decimals the notebook writes and shows. *)
Theorem initial_time_in_recorded_times :
  initial_time = Some (decimal_value 23 2)
  /\ (forall (obj : Type) (subject subjects_dir : value obj),
        keyword "initial_time" (plot_keywords subject subjects_dir)
        = Some (float 23 2))
  /\ printed_array Ipynb.recorded_stdout = Some recorded_times
  /\ map Qred recorded_times
     = map (fun k => Qred (inject_Z (Z.of_nat k) / 100)) (seq 0 25)
  /\ Qmem (decimal_value 23 2) recorded_times = true
  /\ option_map Qred (nth_error recorded_times 23)
     = Some (Qred (decimal_value 23 2))
  /\ hd 0 recorded_times <= decimal_value 23 2
  /\ decimal_value 23 2 <= last recorded_times 0.
Proof.
  repeat split; try (vm_compute; reflexivity).
  all: vm_compute; discriminate.
Qed.

Import Kernel.

(* ================================================================= *)
(** ** Beyond the claims: the cells in a kernel session *)

Ltac unfold_run_in H :=
  cbv [notebook session cell_imports cell_import_g3d cell_plot program
       imports_ast import_g3d_ast plot_ast exec_cells exec_cell exec eval
       load_name lookup bind ret raise import_ call getattr is_os_path_join
       qualname_eqb os_path_join_name data_path_name read_source_estimate_name
       print_name plot_source_estimates_name
       builtin_names existsb
       result world trace raised fst snd app
       String.eqb Ascii.eqb Bool.eqb andb orb] in H.

Lemma qualname_eqb_eq (p q : qualname) : qualname_eqb p q = true -> p = q.
Proof.
  revert q. induction p as [|a p IH]; intros [|b q] H;
    try discriminate H; [reflexivity|].
  cbn in H. apply andb_prop in H as [Hab Hpq].
  apply String.eqb_eq in Hab. rewrite Hab, (IH q Hpq). reflexivity.
Qed.

(** Variables the session held before are kept under the new ones and,
    unless one of them is called [print], change nothing of the run. *)
Lemma session_from_frame {obj W : Type} (L : library obj W)
      (rho : env (obj := obj)) (w : W) :
  lookup rho "print" = None ->
  result (session_from L rho w)
  = map_outcome (fun fresh => fresh ++ rho) (result (session L w))
  /\ world (session_from L rho w) = world (session L w)
  /\ trace (session_from L rho w) = trace (session L w).
Proof.
  intros Hprint. unfold session_from.
  unfold_run_in Hprint. unfold_run. cbv [map_outcome].
  repeat (first [ rewrite Hprint | ask_library ]; cbv beta iota;
          try (repeat split; reflexivity)).
Qed.

(** The variables a completed session holds, latest first. *)
Lemma session_variables {obj W : Type} (L : library obj W) (w : W)
      (rho : env (obj := obj)) :
  result (session L w) = Returned rho ->
  exists root subjects_dir act_data stc fig,
    rho = [ ("fig", VData fig);
            ("stc", VData stc);
            ("act_data", VData act_data);
            ("subjects_dir", VData subjects_dir);
            ("subject", str "sample");
            ("data_path", VData root);
            ("mne_g3d", VRef ["mne_g3d"]);
            ("np", VRef ["numpy"]);
            ("read_source_estimate", VRef ["mne"; "read_source_estimate"]);
            ("mne", VRef ["mne"]);
            ("path", VRef ["os"; "path"]) ]
    /\ returned_by data_path_name (trace (session L w)) = [root]
    /\ returned_by read_source_estimate_name (trace (session L w)) = [stc]
    /\ returned_by plot_source_estimates_name (trace (session L w)) = [fig]
    /\ os_path_join L [VData root; str "subjects"] [] = Returned subjects_dir
    /\ os_path_join L [VData root; str "MEG/sample/sample_audvis-meg-eeg"] []
       = Returned act_data.
Proof.
  unfold_run.
  repeat (ask_library; cbv beta iota).
  all: intros H; try discriminate H.
  injection H as <-.
  do 5 eexists. repeat split; eauto.
Qed.

Lemma sample_session_completes :
  result (session Sample.library Sample.installed) = Returned sample_variables.
Proof. vm_compute. reflexivity. Qed.

(** *** Running the plot cell without the import cells *)

(** X1: the third code cell needs the first.  Run first in a fresh session,
    it raises [NameError] for [mne] without handing anything to a library
    and leaves the outside as it was.  Run after the second code cell only,
    it raises the same [NameError] right after the import of [mne_g3d]
    (whose own exception, if it raises, ends the run instead); no dataset
    function is called. *)
Theorem plot_cell_needs_first_cell {obj W : Type} (L : library obj W) (w : W) :
  plot_cell_alone L w = (Raised (Exception "NameError" "mne"), w, [])
  /\ result (without_first_cell L w)
     = match fst (lib_import L ["mne_g3d"] w) with
       | Returned _ => Raised (Exception "NameError" "mne")
       | Raised e => Raised e
       end
  /\ trace (without_first_cell L w)
     = [EvImport ["mne_g3d"] (fst (lib_import L ["mne_g3d"] w))].
Proof.
  unfold plot_cell_alone, without_first_cell.
  split; [reflexivity|].
  unfold_run. destruct (lib_import L ["mne_g3d"] w) as [[[]|e] w1].
  all: split; reflexivity.
Qed.

(** X2: the third code cell needs the second.  With the first and third
    code cells only, no run returns and the plotting function is never
    called; when every library operation returns, the dataset is loaded and
    [stc.times] printed as in the full notebook, and the run then ends with
    [NameError] for [mne_g3d]. *)
Theorem plot_cell_needs_second_cell {obj W : Type} (L : library obj W) (w : W) :
  (exists e, result (without_second_cell L w) = Raised e)
  /\ calls_to plot_source_estimates_name (trace (without_second_cell L w)) = []
  /\ (existsb event_raises (trace (without_second_cell L w)) = false ->
      result (without_second_cell L w)
      = Raised (Exception "NameError" "mne_g3d")
      /\ map operation_of (trace (without_second_cell L w))
         = schedule_without_second_cell).
Proof.
  unfold without_second_cell.
  every_run.
  all: split; [eauto | split; [reflexivity|]].
  all: cbn; intros Hall; first [discriminate Hall | split; reflexivity].
Qed.

(** *** Running all cells in a session that holds variables *)



(** X4: [print] is the one name the notebook reads without binding it.
    When the session holds a variable [print], its value is what the third
    code cell calls with [stc.times]: the builtin [print] is called only if
    that value is the builtin itself. *)
Theorem shadowed_print_is_called {obj W : Type} (L : library obj W)
        (rho : env (obj := obj)) (v : value obj) (w : W) :
  lookup rho "print" = Some v ->
  (forall ev, In ev (trace (session_from L rho w)) ->
              is_call_to print_name ev = true -> v = VRef print_name)
  /\ (forall d t,
        In (EvGetattr d "times" (Returned t)) (trace (session_from L rho w)) ->
        exists r, In (EvCall v [VData t] [] r) (trace (session_from L rho w))).
Proof.
  intros Hprint. unfold session_from.
  unfold_run_in Hprint. unfold_run.
  repeat (first [ rewrite Hprint
                | ask_library
                | match goal with
                  | |- context [match ?x with VData _ => _ | VRef _ => _ end] =>
                      is_var x; destruct x
                  | |- context [if ?b then _ else _] => destruct b eqn:?
                  end ];
          cbv beta iota).
  all: split;
    [ intros ev Hin Hev; cbn [In] in Hin; split_in; subst ev;
      try discriminate Hev
    | intros d' t' Hin; cbn [In] in Hin; split_in; try discriminate Hin ].
  all: try (injection Hin as <- <-; eexists; cbn [In]; eauto 20).
  all: try (f_equal; symmetry; apply qualname_eqb_eq; exact Hev).
Qed.

(** On the sample installation, with [print] assigned a string: the call
    of the string is what the log shows, and it raises. *)
Lemma shadowed_print_is_called_witness :
  lookup shadowing_variables "print"
  = Some (str (obj := Sample.sample_obj) "not a function")
  /\ ((forall ev,
         In ev (trace (session_from Sample.library shadowing_variables
                         Sample.installed)) ->
         is_call_to print_name ev = true ->
         str (obj := Sample.sample_obj) "not a function" = VRef print_name)
      /\ (forall d t,
            In (EvGetattr d "times" (Returned t))
               (trace (session_from Sample.library shadowing_variables
                         Sample.installed)) ->
            exists r,
              In (EvCall (str "not a function") [VData t] [] r)
                 (trace (session_from Sample.library shadowing_variables
                           Sample.installed)))).
Proof.
  split; [reflexivity|].
  apply (shadowed_print_is_called Sample.library). reflexivity.
Defined.

Example shadowed_print_run :
  result (session_from Sample.library shadowing_variables Sample.installed)
  = Raised (Exception "TypeError" "unexpected arguments")
  /\ calls_to plot_source_estimates_name
       (trace (session_from Sample.library shadowing_variables
                 Sample.installed)) = [].
Proof. split; vm_compute; reflexivity. Qed.

(** *** What a completed session holds *)

(** X5: when the session completes, it holds eleven variables, each bound
    once: [fig] is what the plotting call returned, [stc] what the load
    returned, [data_path] what [data_path()] returned, [subjects_dir] and
    [act_data] the two joins on it, [subject] the string ['sample'], and
    [path], [mne], [read_source_estimate], [np], [mne_g3d] the imported
    modules and function. *)
Theorem completed_session_variables {obj W : Type} (L : library obj W) (w : W)
        (rho : env (obj := obj)) :
  result (session L w) = Returned rho ->
  exists root subjects_dir act_data stc fig,
    rho = [ ("fig", VData fig);
            ("stc", VData stc);
            ("act_data", VData act_data);
            ("subjects_dir", VData subjects_dir);
            ("subject", str "sample");
            ("data_path", VData root);
            ("mne_g3d", VRef ["mne_g3d"]);
            ("np", VRef ["numpy"]);
            ("read_source_estimate", VRef ["mne"; "read_source_estimate"]);
            ("mne", VRef ["mne"]);
            ("path", VRef ["os"; "path"]) ]
    /\ returned_by data_path_name (trace (session L w)) = [root]
    /\ returned_by read_source_estimate_name (trace (session L w)) = [stc]
    /\ returned_by plot_source_estimates_name (trace (session L w)) = [fig]
    /\ os_path_join L [VData root; str "subjects"] [] = Returned subjects_dir
    /\ os_path_join L [VData root; str "MEG/sample/sample_audvis-meg-eeg"] []
       = Returned act_data.
Proof. exact (session_variables L w rho). Qed.

Lemma completed_session_variables_witness :
  result (session Sample.library Sample.installed) = Returned sample_variables
  /\ exists root subjects_dir act_data stc fig,
       sample_variables
       = [ ("fig", VData fig);
           ("stc", VData stc);
           ("act_data", VData act_data);
           ("subjects_dir", VData subjects_dir);
           ("subject", str "sample");
           ("data_path", VData root);
           ("mne_g3d", VRef ["mne_g3d"]);
           ("np", VRef ["numpy"]);
           ("read_source_estimate", VRef ["mne"; "read_source_estimate"]);
           ("mne", VRef ["mne"]);
           ("path", VRef ["os"; "path"]) ]
       /\ returned_by data_path_name
            (trace (session Sample.library Sample.installed)) = [root]
       /\ returned_by read_source_estimate_name
            (trace (session Sample.library Sample.installed)) = [stc]
       /\ returned_by plot_source_estimates_name
            (trace (session Sample.library Sample.installed)) = [fig]
       /\ os_path_join Sample.library [VData root; str "subjects"] []
          = Returned subjects_dir
       /\ os_path_join Sample.library
            [VData root; str "MEG/sample/sample_audvis-meg-eeg"] []
          = Returned act_data.
Proof.
  split; [exact sample_session_completes|].
  exact (completed_session_variables Sample.library Sample.installed _
           sample_session_completes).
Defined.

(** X6: running all cells a second time in the session a completed run
    left gives the run a fresh session would give from the outside as the
    first run left it: the same operations, arguments, ending and outside
    state; the second run's variables are put over the first run's. *)
Theorem rerun_in_same_session {obj W : Type} (L : library obj W) (w : W)
        (rho : env (obj := obj)) :
  result (session L w) = Returned rho ->
  result (session_from L rho (world (session L w)))
  = map_outcome (fun fresh => fresh ++ rho)
                (result (session L (world (session L w))))
  /\ world (session_from L rho (world (session L w)))
     = world (session L (world (session L w)))
  /\ trace (session_from L rho (world (session L w)))
     = trace (session L (world (session L w))).
Proof.
  intros H. apply session_from_frame.
  destruct (session_variables L w rho H) as (? & ? & ? & ? & ? & -> & _).
  reflexivity.
Qed.

Lemma rerun_in_same_session_witness :
  result (session Sample.library Sample.installed) = Returned sample_variables
  /\ (result (session_from Sample.library sample_variables
                (world (session Sample.library Sample.installed)))
      = map_outcome (fun fresh => fresh ++ sample_variables)
          (result (session Sample.library
                     (world (session Sample.library Sample.installed))))
      /\ world (session_from Sample.library sample_variables
                  (world (session Sample.library Sample.installed)))
         = world (session Sample.library
                    (world (session Sample.library Sample.installed)))
      /\ trace (session_from Sample.library sample_variables
                  (world (session Sample.library Sample.installed)))
         = trace (session Sample.library
                    (world (session Sample.library Sample.installed)))).
Proof.
  split; [exact sample_session_completes|].
  exact (rerun_in_same_session Sample.library Sample.installed _
           sample_session_completes).
Defined.

(** *** The unused import *)

(** X7: [import numpy as np] binds [np], and nothing reads it: no
    expression of the notebook mentions [np], and in no run is [numpy] or a
    member of it called or handed to a call. *)
Theorem numpy_is_never_used {obj W : Type} (L : library obj W) (w : W) :
  In (Import ["numpy"] (Some "np")) statements
  /\ existsb (String.eqb "np") (flat_map stmt_reads statements) = false
  /\ forallb (fun ev => negb (event_uses "numpy" ev)) (trace (session L w))
     = true.
Proof.
  split; [cbn; tauto|]. split; [reflexivity|].
  every_run. all: reflexivity.
Qed.
